(** * darts: the RandomForest wrapper and the probabilistic-model test module

    A shallow embedding of
      - [darts/models/forecasting/random_forest.py]  (class [RandomForest])
      - [darts/tests/test_probabilistic_models.py]   (module-level code and
        the test class)
    together with the properties that the specification states about them.

    Python objects are mutable and shared by reference.  The only place where
    that matters in these two files is the [kwargs] dictionary of
    [RandomForest.__init__], which is stored in [self.kwargs], updated through
    [self.kwargs] and then read again through the local name [kwargs].  The
    embedding therefore keeps dictionaries in a store indexed by locations and
    lets both names hold the same location. *)

From Stdlib Require Import ZArith String Ascii List DecimalString QArith Qabs.
From stdpp Require Import base option gmap strings list fin_maps.

Local Open Scope Z_scope.
Local Open Scope string_scope.

(* ===================================================================== *)
(** * Python data shared by both files                                     *)
(* ===================================================================== *)

(** Values that can travel through [**kwargs] to scikit-learn: the options of
    [RandomForestRegressor] are [None], booleans, integers and strings
    (floating-point options are left out of the embedding). *)
Inductive pyval : Type :=
  | VNone
  | VBool (b : bool)
  | VInt (z : Z)
  | VStr (s : string).

#[global] Instance pyval_eq_dec : EqDecision pyval.
Proof. solve_decision. Defined.

(** A [dict] with string keys, as [**kwargs] always is. *)
Abbreviation pydict := (gmap string pyval).

(** [Optional[int]], the annotation of [n_estimators] and [max_depth], seen as
    a Python value. *)
Definition of_optint (o : option Z) : pyval :=
  match o with
  | None => VNone
  | Some z => VInt z
  end.

(** A lag specification, following the annotations of the constructor:
    [None], an [int], a [List[int]] or a [Tuple[int, int]]. *)
Inductive lag_spec : Type :=
  | LagNone
  | LagCount (n : Z)
  | LagList (l : list Z)
  | LagPair (past future : Z).

#[global] Instance lag_spec_eq_dec : EqDecision lag_spec.
Proof. solve_decision. Defined.

(** An exception object: its class, the remaining classes of its method
    resolution order, and its message. *)
Record pyexn : Type := PyExn {
  exn_class : string;
  exn_bases : list string;
  exn_msg : string
}.

#[global] Instance pyexn_eq_dec : EqDecision pyexn.
Proof. solve_decision. Defined.

(** [isinstance(e, cls)]: what an [except cls:] clause tests. *)
Definition isinstance (e : pyexn) (cls : string) : bool :=
  bool_decide (cls ∈ exn_class e :: exn_bases e).

Definition AttributeError (obj attr : string) : pyexn :=
  PyExn "AttributeError" ["Exception"; "BaseException"; "object"]
        ("'" +:+ obj +:+ "' object has no attribute '" +:+ attr +:+ "'").

(** ** [str()] of the values that [__str__] interpolates *)

(** [str(z)] for an [int]: decimal digits, with a leading minus sign. *)
Definition str_int (z : Z) : string := NilZero.string_of_int (Z.to_int z).

Definition str_optint (o : option Z) : string :=
  match o with
  | None => "None"
  | Some z => str_int z
  end.

(** [sep.join(l)] *)
Fixpoint join (sep : string) (l : list string) : string :=
  match l with
  | [] => ""
  | [x] => x
  | x :: r => x +:+ sep +:+ join sep r
  end.

(** [str(v)] for a lag specification: ["None"], ["3"], ["[-3, -1]"] or
    ["(2, 1)"]. *)
Definition str_lag (v : lag_spec) : string :=
  match v with
  | LagNone => "None"
  | LagCount n => str_int n
  | LagList l => "[" +:+ join ", " (map str_int l) +:+ "]"
  | LagPair p f => "(" +:+ str_int p +:+ ", " +:+ str_int f +:+ ")"
  end.

(** ** Parentheses in a string *)

(** [close_at depth s pos] scans [s], whose first character has index [pos],
    for the closing parenthesis of a parenthesis opened before [s] with
    [depth] further parentheses open inside it. *)
Fixpoint close_at (depth : nat) (s : string) (pos : nat) : option nat :=
  match s with
  | EmptyString => None
  | String c r =>
      if Ascii.eqb c ")" then
        match depth with
        | O => Some pos
        | S d => close_at d r (S pos)
        end
      else if Ascii.eqb c "(" then close_at (S depth) r (S pos)
      else close_at depth r (S pos)
  end.

Fixpoint string_drop (n : nat) (s : string) : string :=
  match n, s with
  | O, _ => s
  | S n', EmptyString => EmptyString
  | S n', String _ r => string_drop n' r
  end.

(** The index of the parenthesis that closes the one at index [i] of [s]. *)
Definition matching_close (s : string) (i : nat) : option nat :=
  close_at 0 (string_drop (S i) s) (S i).

(** [scan depth s]: the number of open parentheses after [s], or [None] when
    [s] closes more than [depth] of them. *)
Fixpoint scan (depth : nat) (s : string) : option nat :=
  match s with
  | EmptyString => Some depth
  | String c r =>
      if Ascii.eqb c ")" then
        match depth with
        | O => None
        | S d => scan d r
        end
      else if Ascii.eqb c "(" then scan (S depth) r
      else scan depth r
  end.

(** A string that leaves the depth where it found it: its parentheses are
    balanced. *)
Definition neutral (s : string) : Prop := ∀ d, scan d s = Some d.

(* ===================================================================== *)
(** * Computations that raise and update a state                           *)
(* ===================================================================== *)

(** A Python statement either completes with a value or raises. *)
Inductive outcome (A : Type) : Type :=
  | Returns (a : A)
  | Raises (e : pyexn).
Arguments Returns {A} a.
Arguments Raises {A} e.

(** A computation over a state [St]; the state reached is kept also when the
    computation raises, since an [except] clause continues from it. *)
Definition Py (St A : Type) : Type := St → outcome A * St.

#[global] Instance Py_ret {St} : MRet (Py St) :=
  λ A a s, (Returns a, s).

#[global] Instance Py_bind {St} : MBind (Py St) :=
  λ A B f m s,
    match m s with
    | (Returns a, s') => f a s'
    | (Raises e, s') => (Raises e, s')
    end.

Definition raise {St A} (e : pyexn) : Py St A :=
  λ s, (Raises e, s).

(** The result of a call into a library, which returns or raises without
    touching the state of the caller. *)
Definition lift_result {St A} (r : pyexn + A) : Py St A :=
  match r with
  | inl e => raise e
  | inr a => mret a
  end.

(** [try: body  except cls: handler] *)
Definition try_except {St A} (body : Py St A) (cls : string)
    (handler : Py St A) : Py St A :=
  λ s,
    match body s with
    | (Returns a, s') => (Returns a, s')
    | (Raises e, s') =>
        if isinstance e cls then handler s' else (Raises e, s')
    end.

(** [for x in l: body(x)] *)
Fixpoint for_each {St A} (l : list A) (body : A → Py St unit) : Py St unit :=
  match l with
  | [] => mret tt
  | x :: r => body x ;; for_each r body
  end.

(** A [for] loop that rebinds one variable in its body: [body v x] is the
    value of the variable after the iteration for [x] that started with
    [v]. *)
Fixpoint for_fold {St A B} (l : list A) (v : B) (body : B → A → Py St B)
    : Py St B :=
  match l with
  | [] => mret v
  | x :: r => v' ← body v x ; for_fold r v' body
  end.

(** Library results in sequence: the first [inl] wins. *)
Definition and_then {A B} (r : pyexn + A) (k : A → pyexn + B) : pyexn + B :=
  match r with
  | inl e => inl e
  | inr a => k a
  end.

(** [f] applied to each element of [l], from left to right, up to the first
    one on which it raises. *)
Fixpoint each_result {A B} (f : A → pyexn + B) (l : list A)
    : pyexn + list B :=
  match l with
  | [] => inr []
  | x :: r =>
      and_then (f x) (λ y, and_then (each_result f r) (λ ys, inr (y :: ys)))
  end.

(* ===================================================================== *)
(** * darts/models/forecasting/random_forest.py                            *)
(* ===================================================================== *)

Module random_forest.

(** The identity of a [dict] object. *)
Definition loc : Type := positive.

(** The store of [dict] objects. *)
Abbreviation heap := (gmap loc pydict).

(** An instance of [RandomForest].  [n_estimators], [max_depth] and [kwargs]
    are the attributes that [__init__] assigns; [kwargs] holds a reference.
    [inherited] holds the attributes that [__str__] reads but this file never
    assigns ([lags], [lags_past_covariates], ...): whether they exist is up to
    the base class. *)
Record RandomForest : Type := mkRandomForest {
  n_estimators : option Z;
  max_depth : option Z;
  kwargs : loc;
  inherited : gmap string lag_spec
}.

(** scikit-learn: the estimator type and its constructor, which may raise
    (for instance [TypeError] on an unknown keyword). *)
Class Sklearn : Type := {
  Regressor : Type;
  RandomForestRegressor : pydict → pyexn + Regressor
}.

(** [RegressionModel.__init__(self, lags, lags_past_covariates,
    lags_future_covariates, model)].  It receives [self] and the store, and
    either raises or returns them updated. *)
Class RegressionModel `{Sklearn} : Type := {
  RegressionModel_init :
    RandomForest → heap → lag_spec → lag_spec → lag_spec → Regressor →
    pyexn + (RandomForest * heap)
}.

(** The calls that [RandomForest.__init__] makes to its collaborators, kept
    in the order in which they happen; [R] is the type of estimators. *)
Inductive call (R : Type) : Type :=
  | CallRandomForestRegressor (kw : pydict)
  | CallRegressionModelInit (lags lags_past_covariates
                             lags_future_covariates : lag_spec)
                            (model : R).
Arguments CallRandomForestRegressor {R} kw.
Arguments CallRegressionModelInit {R} lags lags_past_covariates
  lags_future_covariates model.

Record state (R : Type) : Type := mkState {
  dicts : heap;
  calls : list (call R)
}.
Arguments mkState {R} dicts calls.
Arguments dicts {R} s.
Arguments calls {R} s.

(** The arguments of one call [RandomForest(...)]: each named parameter is
    either given or left to its default, and the remaining keywords are
    collected for [**kwargs]. *)
Record init_args : Type := mkArgs {
  arg_lags : option lag_spec;
  arg_lags_past_covariates : option lag_spec;
  arg_lags_future_covariates : option lag_spec;
  arg_n_estimators : option (option Z);
  arg_max_depth : option (option Z);
  arg_kwargs : pydict
}.

(** The signature (lines 26-32): the value that each named parameter is bound
    to, the default when the caller leaves it out. *)
Definition param_lags (a : init_args) : lag_spec :=
  default LagNone (arg_lags a).
Definition param_lags_past_covariates (a : init_args) : lag_spec :=
  default LagNone (arg_lags_past_covariates a).
Definition param_lags_future_covariates (a : init_args) : lag_spec :=
  default LagNone (arg_lags_future_covariates a).
Definition param_n_estimators (a : init_args) : option Z :=
  default (Some 100) (arg_n_estimators a).
Definition param_max_depth (a : init_args) : option Z :=
  default None (arg_max_depth a).

(** The extra keywords of the caller with the two hyperparameters added. *)
Definition kwargs_with_hyperparameters (a : init_args) : pydict :=
  <["max_depth" := of_optint (param_max_depth a)]>
    (<["n_estimators" := of_optint (param_n_estimators a)]> (arg_kwargs a)).

Section Operations.
Context `{RegressionModel}.

Local Abbreviation state := (state Regressor).
Local Abbreviation call := (call Regressor).

(** A new [dict] object with the contents [d]. *)
Definition new_dict (d : pydict) : Py state loc :=
  λ s,
    let l := fresh (dom (dicts s)) in
    (Returns l, mkState (<[l := d]> (dicts s)) (calls s)).

(** [d[k] = v] on the object at [l].  A reference always points to a live
    object, so the case of an unallocated [l] does not arise. *)
Definition dict_setitem (l : loc) (k : string) (v : pyval) : Py state unit :=
  λ s, (Returns tt, mkState (alter (insert k v) l (dicts s)) (calls s)).

(** [**d] at a call site: the current contents of the object at [l]. *)
Definition dict_unpack (l : loc) : Py state pydict :=
  λ s, (Returns (default ∅ (dicts s !! l)), s).

Definition log_call (c : call) : Py state unit :=
  λ s, (Returns tt, mkState (dicts s) (calls s ++ [c])%list).

(** [RandomForestRegressor] applied to the unpacked [kw] *)
Definition new_RandomForestRegressor (kw : pydict) : Py state Regressor :=
  log_call (CallRandomForestRegressor kw) ;;
  lift_result (RandomForestRegressor kw).

(** Running the base-class constructor on [self] and the current store. *)
Definition run_RegressionModel_init (self : RandomForest)
    (lags lags_past_covariates lags_future_covariates : lag_spec)
    (model : Regressor) : Py state RandomForest :=
  λ s,
    match RegressionModel_init self (dicts s) lags lags_past_covariates
                               lags_future_covariates model with
    | inl e => (Raises e, s)
    | inr (self', h') => (Returns self', mkState h' (calls s))
    end.

(** [super().__init__(lags=..., lags_past_covariates=...,
    lags_future_covariates=..., model=...)] *)
Definition super_init (self : RandomForest)
    (lags lags_past_covariates lags_future_covariates : lag_spec)
    (model : Regressor) : Py state RandomForest :=
  log_call (CallRegressionModelInit lags lags_past_covariates
                                    lags_future_covariates model) ;;
  run_RegressionModel_init self lags lags_past_covariates
                           lags_future_covariates model.

(** [RandomForest.__init__] (lines 26-68). *)
Definition RandomForest_init (a : init_args) : Py state RandomForest :=
  (* the signature: the named parameters *)
  let lags := param_lags a in
  let lags_past_covariates := param_lags_past_covariates a in
  let lags_future_covariates := param_lags_future_covariates a in
  let n_estimators := param_n_estimators a in
  let max_depth := param_max_depth a in
  (* [**kwargs]: a new dict holding the remaining keywords *)
  kwargs ← new_dict (arg_kwargs a) ;
  (* self.n_estimators = n_estimators; self.max_depth = max_depth;
     self.kwargs = kwargs *)
  let self := mkRandomForest n_estimators max_depth kwargs ∅ in
  (* self.kwargs["n_estimators"] = self.n_estimators *)
  dict_setitem (random_forest.kwargs self) "n_estimators"
               (of_optint (random_forest.n_estimators self)) ;;
  (* self.kwargs["max_depth"] = self.max_depth *)
  dict_setitem (random_forest.kwargs self) "max_depth"
               (of_optint (random_forest.max_depth self)) ;;
  (* model=RandomForestRegressor of the unpacked kwargs *)
  kw ← dict_unpack kwargs ;
  model ← new_RandomForestRegressor kw ;
  super_init self lags lags_past_covariates lags_future_covariates model.

(** [self.<name>] for an attribute that the base class maintains. *)
Definition getattr_lag (self : RandomForest) (name : string)
    : Py state lag_spec :=
  match inherited self !! name with
  | Some v => mret v
  | None => raise (AttributeError "RandomForest" name)
  end.

(** [RandomForest.__str__] (lines 70-74).  The attributes are read from left
    to right, as the f-string evaluates them. *)
Definition RandomForest_str (self : RandomForest) : Py state string :=
  lags ← getattr_lag self "lags" ;
  lags_past_covariates ← getattr_lag self "lags_past_covariates" ;
  lags_historical_covariates ←
    getattr_lag self "lags_historical_covariates" ;
  lags_future_covariates ← getattr_lag self "lags_future_covariates" ;
  mret ("RandomForest(lags=" +:+ str_lag lags
        +:+ ", lags_past_covariates=" +:+ str_lag lags_past_covariates
        +:+ ", "
        +:+ "lags_historical_covariates="
        +:+ str_lag lags_historical_covariates +:+ ", "
        +:+ "lags_future_covariates=" +:+ str_lag lags_future_covariates
        +:+ ", "
        +:+ "n_estimators=" +:+ str_optint (n_estimators self)
        +:+ ", max_depth=" +:+ str_optint (max_depth self)).

(** The instance and the store at the moment [super().__init__] is called
    from a constructor that started in state [s]. *)
Definition self_at_super (a : init_args) (s : state) : RandomForest :=
  mkRandomForest (param_n_estimators a) (param_max_depth a)
                 (fresh (dom (dicts s))) ∅.
Definition dicts_at_super (a : init_args) (s : state) : heap :=
  <[fresh (dom (dicts s)) := kwargs_with_hyperparameters a]> (dicts s).



End Operations.


(** The attributes that [__str__] reads and this file never assigns, in the
    order in which the f-string reads them. *)
Definition lag_attributes : list string :=
  ["lags"; "lags_past_covariates"; "lags_historical_covariates";
   "lags_future_covariates"].

(** The first of them that the instance lacks. *)
Definition first_missing (self : RandomForest) : option string :=
  find (λ name, bool_decide (inherited self !! name = None)) lag_attributes.

End random_forest.

(* ===================================================================== *)
(** * darts/tests/test_probabilistic_models.py, module level              *)
(* ===================================================================== *)

Module test_probabilistic_models.

(** The model classes that the module names. *)
Inductive model_cls : Type :=
  | ExponentialSmoothing
  | ARIMA
  | RNNModel
  | TCNModel.

#[global] Instance model_cls_eq_dec : EqDecision model_cls.
Proof. solve_decision. Defined.

(** The values of the keyword dictionaries in [models_cls_kwargs_errs]:
    integers and [GaussianLikelihoodModel()] objects. *)
Inductive kwarg : Type :=
  | KInt (z : Z)
  | KGaussianLikelihoodModel.

(** [import module] (no names) or [from module import names]. *)
Record import_stmt : Type := ImportStmt {
  import_module : string;
  import_names : list string
}.

(** The import system: what executing an import statement raises, if
    anything. *)
Class Importer : Type := {
  import_raises : import_stmt → option pyexn
}.

(** A record emitted through [logger]. *)
Record log_record : Type := LogRecord {
  log_level : string;
  log_message : string
}.

(** The state of the module's execution: the records logged so far. *)
Abbreviation log := (list log_record).

(** One entry of [models_cls_kwargs_errs]: class, keyword arguments (in the
    order of the dict literal) and error bound.  The bounds are the decimal
    literals of the source, read as rationals. *)
Definition model_entry : Type := model_cls * list (string * kwarg) * Q.

(** The module globals that the try statement and the list construction
    define. *)
Record globals : Type := mkGlobals {
  TORCH_AVAILABLE : bool;
  models_cls_kwargs_errs : list model_entry
}.

Section Module_level.
Context `{Importer}.

Definition import_ (module : string) (names : list string) : Py log unit :=
  match import_raises (ImportStmt module names) with
  | Some e => raise e
  | None => mret tt
  end.

(** [logger.warning(msg)] *)
Definition logger_warning (msg : string) : Py log unit :=
  λ s, (Returns tt, (s ++ [LogRecord "WARNING" msg])%list).

(** Lines 1-8: the imports outside the try statement. *)
Definition unguarded_imports : list import_stmt :=
  [ ImportStmt "numpy" [];
    ImportStmt ".base_test_class" ["DartsBaseTestClass"];
    ImportStmt "..utils" ["timeseries_generation"];
    ImportStmt "..metrics" ["mae"; "rho_risk"];
    ImportStmt "..logging" ["get_logger"];
    ImportStmt "darts.models" ["ExponentialSmoothing"; "ARIMA"];
    ImportStmt "darts.models.forecasting_model" ["GlobalForecastingModel"] ].

(** Lines 12-13: the imports inside the try statement. *)
Definition guarded_imports : list import_stmt :=
  [ ImportStmt "..models" ["RNNModel"; "TCNModel"];
    ImportStmt "darts.utils.likelihood_models" ["GaussianLikelihoodModel"] ].

(** Import statements executed one after the other. *)
Fixpoint run_imports (l : list import_stmt) : Py log unit :=
  match l with
  | [] => mret tt
  | i :: r => import_ (import_module i) (import_names i) ;; run_imports r
  end.

(** Lines 19-22. *)
Definition base_entries : list model_entry :=
  [ (ExponentialSmoothing, [], 0.4%Q);
    (ARIMA, [("p", KInt 1); ("d", KInt 0); ("q", KInt 1)], 0.17%Q) ].

(** Lines 25-30. *)
Definition torch_entries : list model_entry :=
  [ (RNNModel,
     [("input_chunk_length", KInt 2); ("training_length", KInt 10);
      ("n_epochs", KInt 20); ("random_state", KInt 0);
      ("likelihood", KGaussianLikelihoodModel)], 1.9%Q);
    (TCNModel,
     [("input_chunk_length", KInt 10); ("output_chunk_length", KInt 5);
      ("n_epochs", KInt 60); ("random_state", KInt 0);
      ("likelihood", KGaussianLikelihoodModel)], 0.28%Q) ].

(** Lines 1-30: the execution of the module up to the class statement. *)
Definition module_init : Py log globals :=
  run_imports unguarded_imports ;;
  TORCH_AVAILABLE ←
    try_except
      (run_imports guarded_imports ;; mret true)
      "ImportError"
      (logger_warning "Torch not available. TCN tests will be skipped." ;;
       mret false) ;
  let models_cls_kwargs_errs := base_entries in
  let models_cls_kwargs_errs :=
    if TORCH_AVAILABLE : bool
    then (models_cls_kwargs_errs ++ torch_entries)%list
    else models_cls_kwargs_errs in
  mret (mkGlobals TORCH_AVAILABLE models_cls_kwargs_errs).

(** The classes that the three test methods instantiate: each loops over
    [models_cls_kwargs_errs]. *)
Definition tested_classes (g : globals) : list model_cls :=
  map (λ entry : model_entry, entry.1.1) (models_cls_kwargs_errs g).

(** The record that line 16 logs. *)
Definition torch_warning : log_record :=
  LogRecord "WARNING" "Torch not available. TCN tests will be skipped.".

(** The first exception that a sequence of import statements raises. *)
Fixpoint first_raised (l : list import_stmt) : option pyexn :=
  match l with
  | [] => None
  | i :: r =>
      match import_raises i with
      | Some e => Some e
      | None => first_raised r
      end
  end.

End Module_level.

(** ** The test class (lines 33-127) *)

(** What the test methods call: darts models and series, the two metrics,
    numpy comparisons and Python floats.  Constructing, fitting and
    predicting use and change the state [World] of the libraries (fitted
    parameters, random generators); slicing, quantiles, metrics and
    comparisons compute from their arguments and may raise. *)
Class Darts : Type := {
  World : Type;
  Model : Type;
  TimeSeries : Type;
  ndarray : Type;
  pyfloat : Type;
  (* model_cls(..model_kwargs) *)
  new_model : model_cls → list (string * kwarg) → Py World Model;
  (* model.fit(series) *)
  fit : Model → TimeSeries → Py World unit;
  (* model.predict(n=.., num_samples=..) *)
  predict : Model → Z → Z → Py World TimeSeries;
  (* series.values() *)
  values : TimeSeries → pyexn + ndarray;
  (* series[:n] and series[n:] *)
  slice_to : TimeSeries → Z → pyexn + TimeSeries;
  slice_from : TimeSeries → Z → pyexn + TimeSeries;
  (* series.quantile_timeseries(quantile=..) *)
  quantile_timeseries : TimeSeries → Q → pyexn + TimeSeries;
  (* mae(actual, pred) and rho_risk(actual, pred, rho=..) *)
  mae : TimeSeries → TimeSeries → pyexn + pyfloat;
  rho_risk : TimeSeries → TimeSeries → Q → pyexn + pyfloat;
  (* (a == b).all() and (a != b).any() *)
  all_equal : ndarray → ndarray → pyexn + bool;
  any_different : ndarray → ndarray → pyexn + bool;
  (* a float literal, [a < b] on floats, and [repr] of a float *)
  float_literal : Q → pyfloat;
  float_lt : pyfloat → pyfloat → bool;
  float_repr : pyfloat → string;
  (* issubclass(model_cls, GlobalForecastingModel) *)
  issubclass_GlobalForecastingModel : model_cls → bool
}.

(** The class attributes of lines 36-39, which the methods read through
    [self]; [TS] is the type of time series. *)
Record TestCase (TS : Type) : Type := mkTestCase {
  constant_ts : TS;
  constant_noisy_ts : TS;
  constant_multivar_ts : TS;
  constant_noisy_multivar_ts : TS
}.
Arguments mkTestCase {TS} _ _ _ _.
Arguments constant_ts {TS} _.
Arguments constant_noisy_ts {TS} _.
Arguments constant_multivar_ts {TS} _.
Arguments constant_noisy_multivar_ts {TS} _.

(** Line 40. *)
Definition num_samples : Z := 5.

Definition AssertionError (msg : string) : pyexn :=
  PyExn "AssertionError" ["Exception"; "BaseException"; "object"] msg.

Section Test_methods.
Context `{Darts}.

(** [self.assertTrue(expr)] *)
Definition assertTrue (expr : bool) : Py World unit :=
  if expr then mret tt else raise (AssertionError "False is not true").

(** [self.assertLess(a, b)] *)
Definition assertLess (a b : pyfloat) : Py World unit :=
  if float_lt a b then mret tt
  else raise (AssertionError
                (float_repr a +:+ " not less than " +:+ float_repr b)).

(** The expression [mae(ts[100:], series)]. *)
Definition mae_holdout (ts series : TimeSeries) : pyexn + pyfloat :=
  and_then (slice_from ts 100) (λ hold, mae hold series).

(** The expression
    [mae(ts[100:], pred.quantile_timeseries(quantile=quantile))]:
    the arguments are evaluated from left to right. *)
Definition mae_quantile (ts pred : TimeSeries) (quantile : Q)
    : pyexn + pyfloat :=
  and_then (slice_from ts 100) (λ hold,
  and_then (quantile_timeseries pred quantile) (λ series,
  mae hold series)).

(** The expression [rho_risk(ts[100:], pred, rho=rho)]. *)
Definition rho_risk_holdout (ts pred : TimeSeries) (rho : Q)
    : pyexn + pyfloat :=
  and_then (slice_from ts 100) (λ hold, rho_risk hold pred rho).

(** The expression [model.predict(n=n, num_samples=k).values()]. *)
Definition predict_values (model : Model) (n k : Z) : Py World ndarray :=
  pred ← predict model n k ;
  lift_result (values pred).

(** [test_fit_predict_determinism] (lines 42-59). *)
Definition test_fit_predict_determinism (self : TestCase TimeSeries)
    (g : globals) : Py World unit :=
  for_each (models_cls_kwargs_errs g) (λ entry,
    let model_kwargs := entry.1.2 in
    model ← new_model entry.1.1 model_kwargs ;
    fit model (constant_ts self) ;;
    pred1 ← predict_values model 10 2 ;
    model ← new_model entry.1.1 model_kwargs ;
    fit model (constant_ts self) ;;
    pred2 ← predict_values model 10 2 ;
    same ← lift_result (all_equal pred1 pred2) ;
    assertTrue same ;;
    pred3 ← predict_values model 10 2 ;
    differ ← lift_result (any_different pred2 pred3) ;
    assertTrue differ).

(** [helper_test_probabilistic_forecast_accuracy] (lines 79-102). *)
Definition helper_test_probabilistic_forecast_accuracy
    (cls : model_cls) (model_kwargs : list (string * kwarg)) (err : Q)
    (ts noisy_ts : TimeSeries) : Py World unit :=
  model ← new_model cls model_kwargs ;
  train ← lift_result (slice_to noisy_ts 100) ;
  fit model train ;;
  pred ← predict model 100 100 ;
  mae_err_median ← lift_result (mae_holdout ts pred) ;
  assertLess mae_err_median (float_literal err) ;;
  let tested_quantiles := [0.7; 0.8; 0.9; 0.99]%Q in
  let mae_err := mae_err_median in
  for_fold tested_quantiles mae_err (λ mae_err quantile,
    new_mae ← lift_result (mae_quantile ts pred quantile) ;
    assertLess mae_err new_mae ;;
    mret new_mae) ;;
  let tested_quantiles := [0.3; 0.2; 0.1; 0.01]%Q in
  let mae_err := mae_err_median in
  for_fold tested_quantiles mae_err (λ mae_err quantile,
    new_mae ← lift_result (mae_quantile ts pred quantile) ;
    assertLess mae_err new_mae ;;
    mret new_mae) ;;
  mret tt.

(** [helper_test_probabilistic_forecast_risk] (lines 104-127). *)
Definition helper_test_probabilistic_forecast_risk
    (cls : model_cls) (model_kwargs : list (string * kwarg)) (err : Q)
    (ts noisy_ts : TimeSeries) : Py World unit :=
  model ← new_model cls model_kwargs ;
  train ← lift_result (slice_to noisy_ts 100) ;
  fit model train ;;
  pred ← predict model 100 100 ;
  rrisk_median ← lift_result (rho_risk_holdout ts pred 0.5%Q) ;
  assertLess rrisk_median (float_literal err) ;;
  let tested_quantiles := [0.8; 0.9; 0.95; 0.99]%Q in
  rrisk_err ← lift_result (rho_risk_holdout ts pred 0.75%Q) ;
  for_fold tested_quantiles rrisk_err (λ rrisk_err quantile,
    new_rrisk ← lift_result (rho_risk_holdout ts pred quantile) ;
    assertLess rrisk_err new_rrisk ;;
    mret new_rrisk) ;;
  let tested_quantiles := [0.2; 0.1; 0.05; 0.01]%Q in
  rrisk_err ← lift_result (rho_risk_holdout ts pred 0.25%Q) ;
  for_fold tested_quantiles rrisk_err (λ rrisk_err quantile,
    new_rrisk ← lift_result (rho_risk_holdout ts pred quantile) ;
    assertLess rrisk_err new_rrisk ;;
    mret new_rrisk) ;;
  mret tt.

(** [test_probabilistic_forecast_accuracy] (lines 61-68). *)
Definition test_probabilistic_forecast_accuracy (self : TestCase TimeSeries)
    (g : globals) : Py World unit :=
  for_each (models_cls_kwargs_errs g) (λ entry,
    helper_test_probabilistic_forecast_accuracy
      entry.1.1 entry.1.2 entry.2
      (constant_ts self) (constant_noisy_ts self) ;;
    if issubclass_GlobalForecastingModel entry.1.1
    then helper_test_probabilistic_forecast_accuracy
           entry.1.1 entry.1.2 entry.2
           (constant_multivar_ts self) (constant_noisy_multivar_ts self)
    else mret tt).

(** [test_probabilistic_forecast_risk] (lines 70-77). *)
Definition test_probabilistic_forecast_risk (self : TestCase TimeSeries)
    (g : globals) : Py World unit :=
  for_each (models_cls_kwargs_errs g) (λ entry,
    helper_test_probabilistic_forecast_risk
      entry.1.1 entry.1.2 entry.2
      (constant_ts self) (constant_noisy_ts self) ;;
    if issubclass_GlobalForecastingModel entry.1.1
    then helper_test_probabilistic_forecast_risk
           entry.1.1 entry.1.2 entry.2
           (constant_multivar_ts self) (constant_noisy_multivar_ts self)
    else mret tt).

(** *** Notions used to state what the tests check *)

(** Each float of the list is [<] the next one. *)
Fixpoint increasing (l : list pyfloat) : bool :=
  match l with
  | a :: r =>
      match r with
      | b :: _ => float_lt a b && increasing r
      | [] => true
      end
  | [] => true
  end.

(** Lines 80-82 and 105-107: the forecast that both helpers examine. *)
Definition forecast (cls : model_cls) (model_kwargs : list (string * kwarg))
    (noisy_ts : TimeSeries) : Py World TimeSeries :=
  model ← new_model cls model_kwargs ;
  train ← lift_result (slice_to noisy_ts 100) ;
  fit model train ;;
  predict model 100 100.

(** A new model of the class, fitted on [ts], with its first values. *)
Definition fitted_with_values (cls : model_cls)
    (model_kwargs : list (string * kwarg)) (ts : TimeSeries)
    : Py World (Model * ndarray) :=
  model ← new_model cls model_kwargs ;
  fit model ts ;;
  v ← predict_values model 10 2 ;
  mret (model, v).

(** What a passing run of [test_fit_predict_determinism] has observed, entry
    after entry, between the states [w] and [w']. *)
Fixpoint determinism_observed (ts : TimeSeries) (entries : list model_entry)
    (w w' : World) : Prop :=
  match entries with
  | [] => w' = w
  | entry :: rest =>
      ∃ model1 pred1 w1 model2 pred2 w2 pred3 w3,
        fitted_with_values entry.1.1 entry.1.2 ts w
          = (Returns (model1, pred1), w1)
        ∧ fitted_with_values entry.1.1 entry.1.2 ts w1
          = (Returns (model2, pred2), w2)
        ∧ all_equal pred1 pred2 = inr true
        ∧ predict_values model2 10 2 w2 = (Returns pred3, w3)
        ∧ any_different pred2 pred3 = inr true
        ∧ determinism_observed ts rest w3 w'
  end.

End Test_methods.

End test_probabilistic_models.

(* ===================================================================== *)
(** * Concrete collaborators, to run the embedding on inputs               *)
(* ===================================================================== *)

Module samples.
Import random_forest test_probabilistic_models.

Definition TypeError (msg : string) : pyexn :=
  PyExn "TypeError" ["Exception"; "BaseException"; "object"] msg.

Definition ValueError (msg : string) : pyexn :=
  PyExn "ValueError" ["Exception"; "BaseException"; "object"] msg.

Definition ModuleNotFoundError (msg : string) : pyexn :=
  PyExn "ModuleNotFoundError"
        ["ImportError"; "Exception"; "BaseException"; "object"] msg.

(** An estimator that stores its parameters and, like any Python signature
    without [**kwargs], rejects a keyword it does not know. *)
Definition estimator_params : list string :=
  ["n_estimators"; "criterion"; "max_depth"; "min_samples_split";
   "min_samples_leaf"; "max_features"; "bootstrap"; "n_jobs";
   "random_state"; "verbose"].

#[global] Instance storing_estimator : Sklearn := {|
  Regressor := pydict;
  RandomForestRegressor kw :=
    if forallb (λ k : string, bool_decide (k ∈ estimator_params))
               (map_to_list kw).*1
    then inr kw
    else inl (TypeError "__init__() got an unexpected keyword argument")
|}.

(** A base class that demands at least one lag specification, records the
    three it is given and touches nothing else. *)
#[global] Instance recording_base : RegressionModel := {|
  RegressionModel_init self h lags lpc lfc model :=
    match lags, lpc, lfc with
    | LagNone, LagNone, LagNone =>
        inl (ValueError "At least one lag specification must be given")
    | _, _, _ =>
        inr (mkRandomForest (n_estimators self) (max_depth self) (kwargs self)
               (<["lags" := lags]>
                (<["lags_past_covariates" := lpc]>
                 (<["lags_historical_covariates" := lpc]>
                  (<["lags_future_covariates" := lfc]> (inherited self))))),
             h)
    end
|}.


Definition empty_state : state Regressor := mkState ∅ [].

(** [RandomForest(lags=3, random_state=0)] *)
Definition args_lags3 : init_args :=
  mkArgs (Some (LagCount 3)) None None None None
         {[ "random_state" := VInt 0 ]}.

(** The instance that the call above builds on [recording_base]. *)
Definition instance_lags3 : RandomForest :=
  mkRandomForest (Some 100) None 1%positive
    (<["lags" := LagCount 3]>
     (<["lags_past_covariates" := LagNone]>
      (<["lags_historical_covariates" := LagNone]>
       (<["lags_future_covariates" := LagNone]> ∅)))).

(** [RandomForest(n_estimators=20, max_depth=5)]: no lags at all. *)
Definition args_nolags : init_args :=
  mkArgs None None None (Some (Some 20)) (Some (Some 5)) ∅.

(** An instance whose four lag attributes exist. *)
Definition instance_with_lags : RandomForest :=
  mkRandomForest (Some 100) None 1%positive
    (<["lags" := LagList [-3; -2; -1]]>
     (<["lags_past_covariates" := LagCount 2]>
      (<["lags_historical_covariates" := LagNone]>
       (<["lags_future_covariates" := LagPair 2 1]> ∅)))).

(** An installation without torch: importing the torch models fails. *)
#[global] Instance no_torch : Importer := {|
  import_raises i :=
    if bool_decide (import_module i = "..models")
    then Some (ModuleNotFoundError "No module named 'torch'")
    else None
|}.

(** An installation where the likelihood module is broken in another way. *)
Definition broken_likelihood : Importer := {|
  import_raises i :=
    if bool_decide (import_module i = "darts.utils.likelihood_models")
    then Some (ValueError "bad configuration")
    else None
|}.

(** [RandomForest(lags=3, colour="red")]: a keyword that the estimator does
    not know. *)
Definition args_unknown_keyword : init_args :=
  mkArgs (Some (LagCount 3)) None None None None
         {[ "colour" := VStr "red" ]}.

(** An instance on which the base class has set the first two lag
    attributes only. *)
Definition instance_half_set : RandomForest :=
  mkRandomForest (Some 100) None 1%positive
    (<["lags" := LagCount 3]> (<["lags_past_covariates" := LagNone]> ∅)).

Definition ImportError (msg : string) : pyexn :=
  PyExn "ImportError" ["Exception"; "BaseException"; "object"] msg.

(** An installation where every import succeeds. *)
Definition full_install : Importer := {|
  import_raises i := None
|}.

(** An installation whose [darts.models] lacks the two classes that line 7
    imports. *)
Definition no_darts_models : Importer := {|
  import_raises i :=
    if bool_decide (import_module i = "darts.models")
    then Some (ImportError "cannot import name 'ExponentialSmoothing'")
    else None
|}.


(** A small forecasting library.  A series is a level and the number of the
    draw it came from.  Building a model restarts the generator; each
    prediction is at level 1/2 and uses up one draw.  The quantile series at
    [q] lies [q - 1/2] above the forecast; [mae] is the distance of the
    levels and the risk at [rho] grows with the distance of [rho] from
    1/2. *)
#[global] Instance toy_darts : Darts := {|
  World := nat;
  Model := model_cls;
  TimeSeries := Q * nat;
  ndarray := nat;
  pyfloat := Q;
  new_model cls kw := λ w, (Returns cls, 0%nat);
  fit model series := mret tt;
  predict model n k := λ w, (Returns ((1 # 2)%Q, w), S w);
  values series := inr series.2;
  slice_to series n := inr series;
  slice_from series n := inr series;
  quantile_timeseries series q :=
    inr ((series.1 + (q - (1 # 2)))%Q, series.2);
  mae actual pred := inr (Qabs (pred.1 - actual.1))%Q;
  rho_risk actual pred rho :=
    inr (Qabs (pred.1 - actual.1) + Qabs (rho - (1 # 2)))%Q;
  all_equal a b := inr (bool_decide (a = b));
  any_different a b := inr (negb (bool_decide (a = b)));
  float_literal q := q;
  float_lt a b := negb (Qle_bool b a);
  float_repr a := "<float>";
  issubclass_GlobalForecastingModel cls :=
    match cls with
    | RNNModel | TCNModel => true
    | ExponentialSmoothing | ARIMA => false
    end
|}.

(** A test case whose series are all at level 1/2. *)
Definition flat_case : TestCase (Q * nat) :=
  mkTestCase ((1 # 2)%Q, 0%nat) ((1 # 2)%Q, 0%nat)
             ((1 # 2)%Q, 0%nat) ((1 # 2)%Q, 0%nat).

(** A test case whose multivariate series are off the level of the
    forecasts. *)
Definition skewed_case : TestCase (Q * nat) :=
  mkTestCase ((1 # 2)%Q, 0%nat) ((1 # 2)%Q, 0%nat)
             (3%Q, 0%nat) (3%Q, 0%nat).

End samples.

(* ===================================================================== *)
(** * Running a computation                                                *)
(* ===================================================================== *)

Lemma Py_bind_run {St A B} (m : Py St A) (f : A → Py St B) (s : St) :
  (m ≫= f) s =
    match m s with
    | (Returns a, s') => f a s'
    | (Raises e, s') => (Raises e, s')
    end.
Proof. reflexivity. Qed.

Lemma Py_ret_run {St A} (a : A) (s : St) :
  (mret a : Py St A) s = (Returns a, s).
Proof. reflexivity. Qed.

(* ===================================================================== *)
(** * Facts about rendering and parentheses                                *)
(* ===================================================================== *)

Example str_int_neg : str_int (-12) = "-12".
Proof. reflexivity. Qed.

Example str_int_zero : str_int 0 = "0".
Proof. reflexivity. Qed.

Example str_lag_list : str_lag (LagList [-3; -2; -1]) = "[-3, -2, -1]".
Proof. reflexivity. Qed.

Example str_lag_pair : str_lag (LagPair 2 1) = "(2, 1)".
Proof. reflexivity. Qed.

Example matching_close_ex : matching_close "f(a(b)c)d" 1 = Some 7%nat.
Proof. reflexivity. Qed.

Section Parentheses.

(** No closing parenthesis is found exactly when the scan never drops below
    the starting depth. *)
Lemma close_at_None (d : nat) (s : string) (p : nat) :
  close_at d s p = None ↔ is_Some (scan d s).
Proof.
  revert d p. induction s as [|c r IH]; intros d p; simpl.
  - split; eauto.
  - destruct (Ascii.eqb c ")").
    + destruct d as [|d]; [|apply IH].
      split; [discriminate | intros [? ?]; discriminate].
    + destruct (Ascii.eqb c "("); apply IH.
Qed.

Lemma scan_app (d : nat) (a b : string) :
  scan d (a +:+ b) = scan d a ≫= λ d', scan d' b.
Proof.
  revert d. induction a as [|c r IH]; intros d; simpl; [done|].
  destruct (Ascii.eqb c ")").
  - destruct d; [done | apply IH].
  - destruct (Ascii.eqb c "("); apply IH.
Qed.

Lemma scan_neutral_app (d : nat) (a b : string) :
  neutral a → scan d (a +:+ b) = scan d b.
Proof. intros Ha. by rewrite scan_app, Ha. Qed.

Lemma neutral_app (a b : string) : neutral a → neutral b → neutral (a +:+ b).
Proof. intros Ha Hb d. by rewrite scan_neutral_app. Qed.

Lemma neutral_digits (u : Decimal.uint) :
  neutral (NilEmpty.string_of_uint u).
Proof.
  induction u as [|u IH|u IH|u IH|u IH|u IH|u IH|u IH|u IH|u IH|u IH];
    intros d; simpl; [done | apply IH ..].
Qed.

Lemma neutral_uint (u : Decimal.uint) : neutral (NilZero.string_of_uint u).
Proof. destruct u; try apply (neutral_digits (_ u)); by intros d. Qed.

Lemma neutral_str_int (z : Z) : neutral (str_int z).
Proof.
  unfold str_int. destruct (Z.to_int z) as [u|u]; simpl.
  - apply neutral_uint.
  - intros d. simpl. apply neutral_uint.
Qed.

Lemma neutral_str_optint (o : option Z) : neutral (str_optint o).
Proof. destruct o; simpl; [apply neutral_str_int | by intros d]. Qed.

Lemma neutral_join_ints (l : list Z) : neutral (join ", " (map str_int l)).
Proof.
  induction l as [|x [|y r] IH]; simpl.
  - by intros d.
  - apply neutral_str_int.
  - apply neutral_app; [apply neutral_str_int|].
    apply (neutral_app ", "); [by intros d | apply IH].
Qed.

Lemma neutral_str_lag (v : lag_spec) : neutral (str_lag v).
Proof.
  destruct v as [|n|l|p f]; simpl.
  - by intros d.
  - apply neutral_str_int.
  - apply (neutral_app "["); [by intros d|].
    apply neutral_app; [apply neutral_join_ints | by intros d].
  - intros d. change (scan (S d) (str_int p +:+ ", " +:+ str_int f +:+ ")")
                      = Some d).
    rewrite (scan_neutral_app _ _ _ (neutral_str_int p)).
    change (scan (S d) (str_int f +:+ ")") = Some d).
    by rewrite (scan_neutral_app _ _ _ (neutral_str_int f)).
Qed.

End Parentheses.

(* ===================================================================== *)
(** * RandomForest: the constructor                                        *)
(* ===================================================================== *)

Section RandomForest_init_facts.
Import random_forest.
Context {SK : Sklearn} {RM : RegressionModel}.

Implicit Types (a : init_args) (s : state Regressor) (e : pyexn).

(** The constructor, step by step: the two collaborators decide the
    outcome, and the calls are logged in order. *)
Lemma RandomForest_init_run a s :
  RandomForest_init a s =
    let kw := kwargs_with_hyperparameters a in
    match RandomForestRegressor kw with
    | inl e =>
        (Raises e,
         mkState (dicts_at_super a s)
                 (calls s ++ [CallRandomForestRegressor kw])%list)
    | inr model =>
        let log :=
          (calls s
           ++ [CallRandomForestRegressor kw;
               CallRegressionModelInit
                 (param_lags a) (param_lags_past_covariates a)
                 (param_lags_future_covariates a) model])%list in
        match RegressionModel_init
                (self_at_super a s) (dicts_at_super a s)
                (param_lags a) (param_lags_past_covariates a)
                (param_lags_future_covariates a) model with
        | inl e => (Raises e, mkState (dicts_at_super a s) log)
        | inr (self', h') => (Returns self', mkState h' log)
        end
    end.
Proof.
  unfold RandomForest_init, new_dict, dict_setitem, dict_unpack,
    new_RandomForestRegressor, super_init, run_RegressionModel_init,
    log_call, lift_result, raise, self_at_super, dicts_at_super,
    kwargs_with_hyperparameters.
  unfold mbind, Py_bind, mret, Py_ret; simpl.
  rewrite !alter_insert_eq, lookup_insert_eq; simpl.
  destruct (RandomForestRegressor _) as [e|model]; simpl; [done|].
  rewrite <- app_assoc; simpl.
  destruct (RegressionModel_init _ _ _ _ _ _) as [e|[self' h']]; done.
Qed.

Lemma kwargs_with_hyperparameters_lookup a :
  kwargs_with_hyperparameters a !! "n_estimators"
    = Some (of_optint (param_n_estimators a))
  ∧ kwargs_with_hyperparameters a !! "max_depth"
    = Some (of_optint (param_max_depth a))
  ∧ (∀ k : string, k ≠ "n_estimators" → k ≠ "max_depth" →
       kwargs_with_hyperparameters a !! k = arg_kwargs a !! k).
Proof.
  unfold kwargs_with_hyperparameters. split_and!.
  - by rewrite lookup_insert_ne, lookup_insert_eq.
  - by rewrite lookup_insert_eq.
  - intros k ? ?. by rewrite !lookup_insert_ne.
Qed.

(** C1.  In every call of the constructor the estimator is
    [RandomForestRegressor] applied to one keyword set [kw], which holds
    ["n_estimators"] and ["max_depth"] at the values of the two parameters
    (100 and [None] when they are omitted) and, under every other key, what
    the caller passed as extra keywords: if [RandomForestRegressor kw]
    raises, the constructor raises that exception; if it returns a model,
    that model is what the base-class constructor is run on, and the outcome
    of the base class is the outcome of the constructor.  No other estimator
    is built.  The update made through [self.kwargs] is seen by the expansion
    of [kwargs], since both name one dict. *)
Theorem regressor_receives_kwargs_and_hyperparameters a s :
  ∃ (kw : pydict) (rest : list (call Regressor)),
    kw !! "n_estimators"
      = Some (of_optint (default (Some 100) (arg_n_estimators a)))
    ∧ kw !! "max_depth" = Some (of_optint (default None (arg_max_depth a)))
    ∧ (∀ k : string,
         k ≠ "n_estimators" → k ≠ "max_depth" →
         kw !! k = arg_kwargs a !! k)
    ∧ (∀ e : pyexn,
         RandomForestRegressor kw = inl e →
         (RandomForest_init a s).1 = Raises e)
    ∧ (∀ model : Regressor,
         RandomForestRegressor kw = inr model →
         (RandomForest_init a s).1
         = match RegressionModel_init
                   (self_at_super a s) (dicts_at_super a s)
                   (default LagNone (arg_lags a))
                   (default LagNone (arg_lags_past_covariates a))
                   (default LagNone (arg_lags_future_covariates a))
                   model with
           | inl e => Raises e
           | inr (self', _) => Returns self'
           end)
    ∧ calls (RandomForest_init a s).2
        = (calls s ++ CallRandomForestRegressor kw :: rest)%list
    ∧ (∀ kw' : pydict, CallRandomForestRegressor kw' ∉ rest).
Proof.
  exists (kwargs_with_hyperparameters a).
  destruct (kwargs_with_hyperparameters_lookup a) as (Hn & Hd & Hk).
  rewrite RandomForest_init_run; simpl.
  destruct (RandomForestRegressor _) as [e|model]; simpl.
  - exists []. split_and!; try done.
    + by intros e' [= ->].
    + intros kw' Hin. inversion Hin.
  - eexists [_].
    change (param_lags a) with (default LagNone (arg_lags a)).
    change (param_lags_past_covariates a)
      with (default LagNone (arg_lags_past_covariates a)).
    change (param_lags_future_covariates a)
      with (default LagNone (arg_lags_future_covariates a)).
    split_and!; try done.
    + intros model' [= <-].
      by destruct (RegressionModel_init _ _ _ _ _ _) as [e|[self' h']].
    + by destruct (RegressionModel_init _ _ _ _ _ _) as [e|[self' h']].
    + intros kw' Hin. apply list_elem_of_singleton in Hin. discriminate.
Qed.

(** C6.  When the estimator has been built, the constructor runs the
    base-class constructor on the three lag arguments exactly as it received
    them ([None] when omitted), whichever shape they have, and on that
    estimator: what [RegressionModel.__init__] does with these arguments is
    what [RandomForest.__init__] does, and the call is the second and last
    one made. *)
Theorem lags_reach_base_unchanged a s (model : Regressor) :
  RandomForestRegressor (kwargs_with_hyperparameters a) = inr model →
  let log :=
    (calls s
     ++ [CallRandomForestRegressor (kwargs_with_hyperparameters a);
         CallRegressionModelInit
           (default LagNone (arg_lags a))
           (default LagNone (arg_lags_past_covariates a))
           (default LagNone (arg_lags_future_covariates a))
           model])%list in
  RandomForest_init a s
  = match RegressionModel_init
            (self_at_super a s) (dicts_at_super a s)
            (default LagNone (arg_lags a))
            (default LagNone (arg_lags_past_covariates a))
            (default LagNone (arg_lags_future_covariates a))
            model with
    | inl e => (Raises e, mkState (dicts_at_super a s) log)
    | inr (self', h') => (Returns self', mkState h' log)
    end.
Proof.
  intros Hmodel. rewrite RandomForest_init_run; simpl. by rewrite Hmodel.
Qed.

(** X11.  The constructor raises nothing of its own: whatever it raises was
    raised by the estimator's constructor or by the base class. *)
Lemma init_raises_only_what_collaborators_raise a s e :
  (RandomForest_init a s).1 = Raises e →
  RandomForestRegressor (kwargs_with_hyperparameters a) = inl e
  ∨ ∃ model,
      RandomForestRegressor (kwargs_with_hyperparameters a) = inr model
      ∧ RegressionModel_init
          (self_at_super a s) (dicts_at_super a s)
          (param_lags a) (param_lags_past_covariates a)
          (param_lags_future_covariates a) model = inl e.
Proof.
  rewrite RandomForest_init_run; simpl.
  destruct (RandomForestRegressor _) as [e'|model] eqn:Hmodel; simpl.
  - intros [= ->]. by left.
  - destruct (RegressionModel_init _ _ _ _ _ _) as [e'|[self' h']] eqn:Hb;
      simpl; [|done].
    intros [= ->]. right. eauto.
Qed.

(** C7.  When the base-class constructor rejects the lag specification with
    an exception [e], the constructor of [RandomForest] raises that same
    [e]: it neither checks the lags itself nor catches anything. *)
Theorem base_exception_propagates a s (model : Regressor) e :
  RandomForestRegressor (kwargs_with_hyperparameters a) = inr model →
  RegressionModel_init
    (self_at_super a s) (dicts_at_super a s)
    (default LagNone (arg_lags a))
    (default LagNone (arg_lags_past_covariates a))
    (default LagNone (arg_lags_future_covariates a)) model = inl e →
  (RandomForest_init a s).1 = Raises e.
Proof.
  intros Hmodel Hbase. rewrite RandomForest_init_run; simpl.
  rewrite Hmodel.
  change (default LagNone (arg_lags a)) with (param_lags a) in Hbase.
  change (default LagNone (arg_lags_past_covariates a))
    with (param_lags_past_covariates a) in Hbase.
  change (default LagNone (arg_lags_future_covariates a))
    with (param_lags_future_covariates a) in Hbase.
  by rewrite Hbase.
Qed.

End RandomForest_init_facts.

(* ===================================================================== *)
(** * RandomForest: the instance after construction, and [__str__]         *)
(* ===================================================================== *)

Section RandomForest_instance_facts.
Import random_forest.
Context {SK : Sklearn} {RM : RegressionModel}.

Implicit Types (a : init_args) (s : state Regressor) (self : RandomForest).

Lemma prefix_empty (t : string) : String.prefix "" t = true.
Proof. by destruct t. Qed.


(** On an instance without a [lags] attribute, [__str__] raises
    [AttributeError] before anything is formatted. *)
Lemma RandomForest_str_without_lags self s :
  inherited self !! "lags" = None →
  RandomForest_str self s = (Raises (AttributeError "RandomForest" "lags"), s).
Proof.
  intros Hlags. unfold RandomForest_str, getattr_lag.
  by rewrite Py_bind_run, Hlags.
Qed.



(** C9.  On an instance whose four lag attributes exist, [__str__] returns
    the text ["RandomForest(lags="] followed by the six attributes in the
    order lags, lags_past_covariates, lags_historical_covariates,
    lags_future_covariates, n_estimators, max_depth; the parenthesis it
    opens after the class name is never closed. *)
Theorem str_interpolates_and_leaves_parenthesis_open
    self s (lags lpc lhc lfc : lag_spec) :
  inherited self !! "lags" = Some lags →
  inherited self !! "lags_past_covariates" = Some lpc →
  inherited self !! "lags_historical_covariates" = Some lhc →
  inherited self !! "lags_future_covariates" = Some lfc →
  ∃ out : string,
    RandomForest_str self s = (Returns out, s)
    ∧ out = "RandomForest(lags=" +:+ str_lag lags
            +:+ ", lags_past_covariates=" +:+ str_lag lpc
            +:+ ", lags_historical_covariates=" +:+ str_lag lhc
            +:+ ", lags_future_covariates=" +:+ str_lag lfc
            +:+ ", n_estimators=" +:+ str_optint (n_estimators self)
            +:+ ", max_depth=" +:+ str_optint (max_depth self)
    ∧ String.prefix "RandomForest(lags=" out = true
    ∧ String.get 12 out = Some "("%char
    ∧ matching_close out 12 = None.
Proof.
  intros H1 H2 H3 H4. eexists.
  split.
  { unfold RandomForest_str, getattr_lag.
    unfold mbind, Py_bind, mret, Py_ret.
    rewrite H1; simpl. rewrite H2; simpl. rewrite H3; simpl.
    rewrite H4; simpl. reflexivity. }
  split; [reflexivity|].
  split; [simpl; apply prefix_empty|].
  split; [reflexivity|].
  unfold matching_close.
  apply close_at_None.
  change (is_Some (scan 0 (str_lag lags
            +:+ ", lags_past_covariates=" +:+ str_lag lpc
            +:+ ", lags_historical_covariates=" +:+ str_lag lhc
            +:+ ", lags_future_covariates=" +:+ str_lag lfc
            +:+ ", n_estimators=" +:+ str_optint (n_estimators self)
            +:+ ", max_depth=" +:+ str_optint (max_depth self)))).
  rewrite (scan_neutral_app _ _ _ (neutral_str_lag lags)).
  change (is_Some (scan 0 (str_lag lpc
            +:+ ", lags_historical_covariates=" +:+ str_lag lhc
            +:+ ", lags_future_covariates=" +:+ str_lag lfc
            +:+ ", n_estimators=" +:+ str_optint (n_estimators self)
            +:+ ", max_depth=" +:+ str_optint (max_depth self)))).
  rewrite (scan_neutral_app _ _ _ (neutral_str_lag lpc)).
  change (is_Some (scan 0 (str_lag lhc
            +:+ ", lags_future_covariates=" +:+ str_lag lfc
            +:+ ", n_estimators=" +:+ str_optint (n_estimators self)
            +:+ ", max_depth=" +:+ str_optint (max_depth self)))).
  rewrite (scan_neutral_app _ _ _ (neutral_str_lag lhc)).
  change (is_Some (scan 0 (str_lag lfc
            +:+ ", n_estimators=" +:+ str_optint (n_estimators self)
            +:+ ", max_depth=" +:+ str_optint (max_depth self)))).
  rewrite (scan_neutral_app _ _ _ (neutral_str_lag lfc)).
  change (is_Some (scan 0 (str_optint (n_estimators self)
            +:+ ", max_depth=" +:+ str_optint (max_depth self)))).
  rewrite (scan_neutral_app _ _ _ (neutral_str_optint _)).
  change (is_Some (scan 0 (str_optint (max_depth self)))).
  rewrite neutral_str_optint. eauto.
Qed.

End RandomForest_instance_facts.

Section RandomForest_with_described_base.
Import random_forest.
Context {SK : Sklearn}.
Variable rejects : lag_spec → lag_spec → lag_spec → Regressor → option pyexn.
Variable recorded :
  lag_spec → lag_spec → lag_spec → Regressor → gmap string lag_spec.



End RandomForest_with_described_base.

(* ===================================================================== *)
(** * The test module: optional imports                                    *)
(* ===================================================================== *)

Section Module_level_facts.
Import test_probabilistic_models.
Context {IS : Importer}.

Implicit Types (s : log) (e : pyexn).

(** A sequence of imports stops at the first statement that raises, and
    logs nothing. *)
Lemma run_imports_first_raised (l : list import_stmt) s :
  run_imports l s =
    match first_raised l with
    | Some e => (Raises e, s)
    | None => (Returns tt, s)
    end.
Proof.
  induction l as [|i r IH]; simpl; [done|].
  unfold mbind, Py_bind, import_.
  destruct i as [m names]; simpl.
  destruct (import_raises _) as [e|]; simpl; [done|].
  apply IH.
Qed.

(** X16.  An exception raised by the imports of lines 1-8 leaves the module,
    whatever its class: they stand outside the try statement. *)
Lemma unguarded_import_failure_propagates s e :
  first_raised unguarded_imports = Some e →
  module_init s = (Raises e, s).
Proof.
  intros Hu. unfold module_init.
  by rewrite Py_bind_run, run_imports_first_raised, Hu.
Qed.

(** X17.  With every import succeeding, all four models are listed,
    [TORCH_AVAILABLE] is [True] and nothing is logged. *)
Lemma all_imports_succeed s :
  first_raised unguarded_imports = None →
  first_raised guarded_imports = None →
  module_init s
    = (Returns (mkGlobals true (base_entries ++ torch_entries)%list), s).
Proof.
  intros Hu Hg. unfold module_init.
  rewrite Py_bind_run, run_imports_first_raised, Hu.
  rewrite Py_bind_run. unfold try_except.
  by rewrite Py_bind_run, run_imports_first_raised, Hg.
Qed.

(** C5.  Let the imports of lines 1-8 succeed and let one of the two
    imports in the try statement raise [e].  If [e] is an [ImportError],
    it is caught: one warning is logged, [TORCH_AVAILABLE] is [False] and
    the list of tested models holds exactly the entries of
    ExponentialSmoothing and ARIMA.  If [e] is of any other class, it is
    not caught and leaves the module. *)
Theorem only_import_error_is_caught s e :
  first_raised unguarded_imports = None →
  first_raised guarded_imports = Some e →
  (isinstance e "ImportError" = true →
     ∃ g : globals,
       module_init s = (Returns g, (s ++ [torch_warning])%list)
       ∧ TORCH_AVAILABLE g = false
       ∧ models_cls_kwargs_errs g = base_entries
       ∧ tested_classes g = [ExponentialSmoothing; ARIMA])
  ∧ (isinstance e "ImportError" = false →
     module_init s = (Raises e, s)).
Proof.
  intros Hu Hg. unfold module_init.
  rewrite Py_bind_run, run_imports_first_raised, Hu.
  rewrite Py_bind_run. unfold try_except.
  rewrite Py_bind_run, run_imports_first_raised, Hg.
  split; intros ->; [|done].
  exists (mkGlobals false base_entries). by split_and!.
Qed.

End Module_level_facts.

(* ===================================================================== *)
(** * Concrete runs                                                        *)
(* ===================================================================== *)

Section Runs.
Import random_forest test_probabilistic_models samples.

(** [RandomForest(lags=3, random_state=0)]: the estimator is built from
    three keywords. *)
Example run_lags3_kwargs :
  map_to_list (kwargs_with_hyperparameters args_lags3)
    = [("max_depth", VNone); ("n_estimators", VInt 100);
       ("random_state", VInt 0)].
Proof. reflexivity. Qed.

Example run_str :
  (RandomForest_str instance_with_lags empty_state).1
    = Returns ("RandomForest(lags=[-3, -2, -1], lags_past_covariates=2, "
               +:+ "lags_historical_covariates=None, "
               +:+ "lags_future_covariates=(2, 1), "
               +:+ "n_estimators=100, max_depth=None").
Proof. reflexivity. Qed.

(** Without the lag attributes, [__str__] raises at the first one. *)
Example run_str_no_attributes :
  (RandomForest_str (mkRandomForest (Some 100) None 1%positive ∅)
                    empty_state).1
    = Raises (AttributeError "RandomForest" "lags").
Proof. reflexivity. Qed.


Lemma regressor_receives_kwargs_and_hyperparameters_witness :
  (RandomForest_init args_unknown_keyword empty_state).1
    = Raises (TypeError "__init__() got an unexpected keyword argument")
  ∧ (RandomForest_init args_lags3 empty_state).1 = Returns instance_lags3.
Proof.
  split.
  - destruct (@regressor_receives_kwargs_and_hyperparameters
                storing_estimator recording_base
                args_unknown_keyword empty_state)
      as (kw & rest & Hn & Hd & Hk & Hraises & _).
    apply Hraises.
    assert (kw = kwargs_with_hyperparameters args_unknown_keyword) as ->.
    { apply map_eq. intros k.
      destruct (kwargs_with_hyperparameters_lookup args_unknown_keyword)
        as (Hn' & Hd' & Hk').
      destruct (decide (k = "n_estimators")) as [->|Hkn];
        [by rewrite Hn, Hn'|].
      destruct (decide (k = "max_depth")) as [->|Hkd];
        [by rewrite Hd, Hd'|].
      by rewrite Hk, Hk'. }
    reflexivity.
  - destruct (@regressor_receives_kwargs_and_hyperparameters
                storing_estimator recording_base args_lags3 empty_state)
      as (kw & rest & Hn & Hd & Hk & _ & Hreturns & _).
    assert (kw = kwargs_with_hyperparameters args_lags3) as ->.
    { apply map_eq. intros k.
      destruct (kwargs_with_hyperparameters_lookup args_lags3)
        as (Hn' & Hd' & Hk').
      destruct (decide (k = "n_estimators")) as [->|Hkn];
        [by rewrite Hn, Hn'|].
      destruct (decide (k = "max_depth")) as [->|Hkd];
        [by rewrite Hd, Hd'|].
      by rewrite Hk, Hk'. }
    rewrite (Hreturns (kwargs_with_hyperparameters args_lags3) eq_refl).
    reflexivity.
Defined.

Lemma lags_reach_base_unchanged_witness :
  RandomForestRegressor (kwargs_with_hyperparameters args_lags3)
    = inr (kwargs_with_hyperparameters args_lags3)
  ∧ RandomForest_init args_lags3 empty_state
    = (Returns instance_lags3,
       mkState
         (dicts_at_super args_lags3 empty_state)
         [CallRandomForestRegressor (kwargs_with_hyperparameters args_lags3);
          CallRegressionModelInit (LagCount 3) LagNone LagNone
            (kwargs_with_hyperparameters args_lags3)]).
Proof.
  split; [reflexivity|].
  exact (@lags_reach_base_unchanged storing_estimator recording_base
           args_lags3 empty_state
           (kwargs_with_hyperparameters args_lags3) eq_refl).
Defined.

Lemma base_exception_propagates_witness :
  RegressionModel_init
    (self_at_super args_nolags empty_state)
    (dicts_at_super args_nolags empty_state)
    LagNone LagNone LagNone (kwargs_with_hyperparameters args_nolags)
    = inl (ValueError "At least one lag specification must be given")
  ∧ (RandomForest_init args_nolags empty_state).1
    = Raises (ValueError "At least one lag specification must be given").
Proof.
  split; [reflexivity|].
  apply (base_exception_propagates args_nolags empty_state
           (kwargs_with_hyperparameters args_nolags)).
  - reflexivity.
  - reflexivity.
Defined.


Lemma str_interpolates_and_leaves_parenthesis_open_witness :
  ∃ out : string,
    RandomForest_str instance_with_lags empty_state
      = (Returns out, empty_state)
    ∧ String.prefix "RandomForest(lags=" out = true
    ∧ matching_close out 12 = None.
Proof.
  destruct (str_interpolates_and_leaves_parenthesis_open
              instance_with_lags empty_state
              (LagList [-3; -2; -1]) (LagCount 2) LagNone (LagPair 2 1))
    as (out & Hrun & _ & Hprefix & _ & Hclose);
    [reflexivity ..|].
  exists out. auto.
Defined.

Lemma only_import_error_is_caught_witness :
  first_raised unguarded_imports = None
  ∧ first_raised guarded_imports
    = Some (ModuleNotFoundError "No module named 'torch'")
  ∧ (module_init []).1 = Returns (mkGlobals false base_entries).
Proof.
  split; [reflexivity|]. split; [reflexivity|].
  destruct (@only_import_error_is_caught no_torch
              [] (ModuleNotFoundError "No module named 'torch'")
              eq_refl eq_refl) as [Hcaught _].
  destruct (Hcaught eq_refl) as (g & Hrun & Hflag & Hmodels & _).
  rewrite Hrun. simpl. destruct g; simpl in *. by subst.
Defined.

End Runs.

(* ===================================================================== *)
(** * Runs that return                                                     *)
(* ===================================================================== *)

Section Returning_runs.
Context {St : Type}.

Lemma bind_returns {A B} (m : Py St A) (f : A → Py St B) (s s' : St) (b : B) :
  (m ≫= f) s = (Returns b, s') ↔
  ∃ a s1, m s = (Returns a, s1) ∧ f a s1 = (Returns b, s').
Proof.
  rewrite Py_bind_run. destruct (m s) as [[a|e] s1]; split.
  - eauto.
  - by intros (a' & s1' & [= -> ->] & Hf).
  - done.
  - by intros (a' & s1' & [=] & _).
Qed.

Lemma bind_raises {A B} (m : Py St A) (f : A → Py St B) (s s' : St) e :
  (m ≫= f) s = (Raises e, s') ↔
  m s = (Raises e, s')
  ∨ ∃ a s1, m s = (Returns a, s1) ∧ f a s1 = (Raises e, s').
Proof.
  rewrite Py_bind_run. destruct (m s) as [[a|e'] s1]; split.
  - eauto.
  - intros [[=]|(a' & s1' & [= -> ->] & Hf)]. done.
  - intros [= -> ->]. by left.
  - intros [[= -> ->]|(a' & s1' & [=] & _)]. done.
Qed.

Lemma bind_after {A B} (m : Py St A) (f : A → Py St B) (s s1 : St) (a : A) :
  m s = (Returns a, s1) → (m ≫= f) s = f a s1.
Proof. intros Hm. by rewrite Py_bind_run, Hm. Qed.

Lemma ret_returns {A} (a b : A) (s s' : St) :
  (mret a : Py St A) s = (Returns b, s') ↔ a = b ∧ s' = s.
Proof. rewrite Py_ret_run. split; [by intros [= -> ->] | by intros [-> ->]]. Qed.

Lemma lift_result_returns {A} (r : pyexn + A) (a : A) (s s' : St) :
  lift_result r s = (Returns a, s') ↔ r = inr a ∧ s' = s.
Proof.
  destruct r as [e|a']; simpl; unfold raise; rewrite ?Py_ret_run; split.
  - done.
  - by intros [[=] _].
  - by intros [= -> ->].
  - by intros [[= ->] ->].
Qed.

Lemma lift_result_inr {A} (a : A) (s : St) :
  lift_result (inr a) s = (Returns a, s).
Proof. done. Qed.

(** A loop passes exactly when its iterations pass one after the other. *)
Lemma for_each_cons {A} (x : A) (l : list A) (body : A → Py St unit) s s' :
  for_each (x :: l) body s = (Returns tt, s') ↔
  ∃ s1, body x s = (Returns tt, s1) ∧ for_each l body s1 = (Returns tt, s').
Proof.
  simpl. rewrite bind_returns. split.
  - intros ([] & s1 & Hx & Hl). eauto.
  - intros (s1 & Hx & Hl). eauto.
Qed.

(** The first iteration that raises ends the loop. *)
Lemma for_each_stops {A} (l1 l2 : list A) (x : A) (body : A → Py St unit)
    s s1 s2 e :
  for_each l1 body s = (Returns tt, s1) →
  body x s1 = (Raises e, s2) →
  for_each (l1 ++ x :: l2) body s = (Raises e, s2).
Proof.
  revert s. induction l1 as [|y l1 IH]; intros s H1 Hx.
  - apply ret_returns in H1 as [_ ->]. simpl. by rewrite Py_bind_run, Hx.
  - apply for_each_cons in H1 as (s0 & Hy & H1). simpl.
    rewrite (bind_after _ _ _ _ _ Hy). by apply IH.
Qed.

(** Loops with bodies that agree on the elements of the list agree. *)
Lemma for_each_ext {A} (l : list A) (body body' : A → Py St unit) s :
  (∀ x s0, x ∈ l → body x s0 = body' x s0) →
  for_each l body s = for_each l body' s.
Proof.
  revert s. induction l as [|x l IH]; intros s Hl; [done|]. simpl.
  rewrite !Py_bind_run, Hl by left.
  destruct (body' x s) as [[[]|e] s1]; [|done].
  apply IH. intros y s0 Hy. apply Hl. by right.
Qed.

(** What a passing loop has passed: every element, in some state. *)
Lemma for_each_passed {A} (l : list A) (body : A → Py St unit) s s' x :
  for_each l body s = (Returns tt, s') → x ∈ l →
  ∃ s1 s2, body x s1 = (Returns tt, s2).
Proof.
  revert s. induction l as [|y l IH]; intros s Hl Hx.
  - inversion Hx.
  - apply for_each_cons in Hl as (s1 & Hy & Hl).
    apply elem_of_cons in Hx as [->|Hx]; eauto.
Qed.

End Returning_runs.

(* ===================================================================== *)
(** * The test class: what the helpers check                               *)
(* ===================================================================== *)

Section Helper_facts.
Import test_probabilistic_models.
Context {D : Darts}.

Implicit Types (w : World) (ts pred : TimeSeries) (f : Q → pyexn + pyfloat).

Lemma assertLess_returns (a b : pyfloat) w w' :
  assertLess a b w = (Returns tt, w') ↔ float_lt a b = true ∧ w' = w.
Proof.
  unfold assertLess, raise. destruct (float_lt a b); rewrite ?Py_ret_run.
  - split; [by intros [= ->] | by intros [_ ->]].
  - split; [done | by intros [[=] _]].
Qed.

Lemma assertLess_fails (a b : pyfloat) w :
  float_lt a b = false →
  ∃ e, assertLess a b w = (Raises e, w) ∧ exn_class e = "AssertionError".
Proof. intros Hlt. unfold assertLess, raise. rewrite Hlt. eauto. Qed.

Lemma assertTrue_returns (expr : bool) w w' :
  assertTrue expr w = (Returns tt, w') ↔ expr = true ∧ w' = w.
Proof.
  unfold assertTrue, raise. destruct expr; rewrite ?Py_ret_run.
  - split; [by intros [= ->] | by intros [_ ->]].
  - split; [done | by intros [[=] _]].
Qed.

(** The loop of lines 91-94 (and 99-102, 116-119, 124-127) over a metric
    [f]: it returns only after computing [f] on every quantile and finding
    each value above the one before, starting from [v]. *)
Lemma chain_loop_returns f (qs : list Q) (v last : pyfloat) w w' :
  for_fold qs v (λ prev q,
      new ← lift_result (f q) ; assertLess prev new ;; mret new) w
    = (Returns last, w') →
  w' = w ∧ ∃ ms, each_result f qs = inr ms ∧ increasing (v :: ms) = true.
Proof.
  revert v w. induction qs as [|q qs IH]; intros v w Hrun.
  - apply ret_returns in Hrun as [_ ->]. split; [done|]. by exists [].
  - simpl in Hrun.
    apply bind_returns in Hrun as (v' & w1 & Hbody & Hrun).
    apply bind_returns in Hbody as (new & w2 & Hnew & Hbody).
    apply lift_result_returns in Hnew as [Hnew ->].
    apply bind_returns in Hbody as ([] & w3 & Hlt & Hret).
    apply assertLess_returns in Hlt as [Hlt ->].
    apply ret_returns in Hret as [<- ->].
    apply IH in Hrun as (-> & ms & Hms & Hinc).
    split; [done|]. exists (new :: ms). simpl. rewrite Hnew, Hms. simpl.
    split; [done|]. rewrite Hlt. exact Hinc.
Qed.

Lemma chain_loop_passes f (qs : list Q) (v : pyfloat) (ms : list pyfloat) w :
  each_result f qs = inr ms →
  increasing (v :: ms) = true →
  ∃ last,
    for_fold qs v (λ prev q,
        new ← lift_result (f q) ; assertLess prev new ;; mret new) w
      = (Returns last, w).
Proof.
  revert v ms. induction qs as [|q qs IH]; intros v ms Hms Hinc.
  - by exists v.
  - simpl in Hms. destruct (f q) as [e|m] eqn:Hq; [done|]. simpl in Hms.
    destruct (each_result f qs) as [e|ms'] eqn:Hqs; [done|].
    injection Hms as <-.
    change (float_lt v m && increasing (m :: ms') = true) in Hinc.
    apply andb_true_iff in Hinc as [Hlt Hinc].
    destruct (IH m ms' eq_refl Hinc) as (last & Hlast).
    exists last. simpl. rewrite !Py_bind_run, Hq. simpl.
    unfold assertLess. rewrite Hlt. simpl. exact Hlast.
Qed.

Lemma chain_loop_fails f (qs : list Q) (v : pyfloat) (ms : list pyfloat) w :
  each_result f qs = inr ms →
  increasing (v :: ms) = false →
  ∃ e,
    for_fold qs v (λ prev q,
        new ← lift_result (f q) ; assertLess prev new ;; mret new) w
      = (Raises e, w)
    ∧ exn_class e = "AssertionError".
Proof.
  revert v ms. induction qs as [|q qs IH]; intros v ms Hms Hinc.
  - simpl in Hms. injection Hms as <-. done.
  - simpl in Hms. destruct (f q) as [e|m] eqn:Hq; [done|]. simpl in Hms.
    destruct (each_result f qs) as [e|ms'] eqn:Hqs; [done|].
    injection Hms as <-.
    change (float_lt v m && increasing (m :: ms') = false) in Hinc.
    simpl. rewrite !Py_bind_run, Hq. simpl. unfold assertLess, raise.
    destruct (float_lt v m) eqn:Hlt; simpl.
    + apply (IH m ms' eq_refl Hinc).
    + eauto.
Qed.

(** Lines 80-82 taken apart. *)
Lemma forecast_returns cls (kw : list (string * kwarg)) (noisy_ts : TimeSeries)
    pred w w' :
  forecast cls kw noisy_ts w = (Returns pred, w') ↔
  ∃ model w1 train w2,
    new_model cls kw w = (Returns model, w1)
    ∧ slice_to noisy_ts 100 = inr train
    ∧ fit model train w1 = (Returns tt, w2)
    ∧ predict model 100 100 w2 = (Returns pred, w').
Proof.
  unfold forecast. rewrite bind_returns. split.
  - intros (model & w1 & Hnew & Hrun). cbv beta in Hrun.
    apply bind_returns in Hrun as (train & w1' & Htrain & Hrun).
    apply lift_result_returns in Htrain as [Htrain ->].
    apply bind_returns in Hrun as ([] & w2 & Hfit & Hrun).
    by exists model, w1, train, w2.
  - intros (model & w1 & train & w2 & Hnew & Htrain & Hfit & Hpred).
    exists model, w1. split; [done|]. cbv beta.
    rewrite Htrain, (bind_after _ _ _ _ _ (lift_result_inr _ _)).
    by rewrite (bind_after _ _ _ _ _ Hfit).
Qed.

(** Both helpers start with the forecast. *)
Lemma accuracy_helper_after_forecast cls (kw : list (string * kwarg)) (err : Q)
    ts (noisy_ts : TimeSeries) pred w w1 :
  forecast cls kw noisy_ts w = (Returns pred, w1) →
  helper_test_probabilistic_forecast_accuracy cls kw err ts noisy_ts w
  = (mae_err_median ← lift_result (mae_holdout ts pred) ;
     assertLess mae_err_median (float_literal err) ;;
     for_fold [0.7; 0.8; 0.9; 0.99]%Q mae_err_median (λ mae_err quantile,
       new_mae ← lift_result (mae_quantile ts pred quantile) ;
       assertLess mae_err new_mae ;; mret new_mae) ;;
     for_fold [0.3; 0.2; 0.1; 0.01]%Q mae_err_median (λ mae_err quantile,
       new_mae ← lift_result (mae_quantile ts pred quantile) ;
       assertLess mae_err new_mae ;; mret new_mae) ;;
     mret tt) w1.
Proof.
  intros (model & w0 & train & w2 & Hnew & Htrain & Hfit & Hpred)
    %forecast_returns.
  unfold helper_test_probabilistic_forecast_accuracy.
  rewrite (bind_after _ _ _ _ _ Hnew). cbv beta.
  rewrite Htrain, (bind_after _ _ _ _ _ (lift_result_inr _ _)).
  rewrite (bind_after _ _ _ _ _ Hfit).
  by rewrite (bind_after _ _ _ _ _ Hpred).
Qed.

Lemma helper_needs_forecast {A} cls (kw : list (string * kwarg))
    (noisy_ts : TimeSeries) (k : TimeSeries → Py World A) (a : A) w w' :
  (model ← new_model cls kw ;
   train ← lift_result (slice_to noisy_ts 100) ;
   fit model train ;;
   pred ← predict model 100 100 ;
   k pred) w = (Returns a, w') →
  ∃ pred w1,
    forecast cls kw noisy_ts w = (Returns pred, w1)
    ∧ k pred w1 = (Returns a, w').
Proof.
  intros Hrun.
  apply bind_returns in Hrun as (model & w1 & Hnew & Hrun). cbv beta in Hrun.
  apply bind_returns in Hrun as (train & w1' & Htrain & Hrun).
  apply lift_result_returns in Htrain as [Htrain ->].
  apply bind_returns in Hrun as ([] & w2 & Hfit & Hrun).
  apply bind_returns in Hrun as (pred & w3 & Hpred & Hrun).
  exists pred, w3. split; [|done].
  apply forecast_returns. by exists model, w1, train, w2.
Qed.

(** X1.  [helper_test_probabilistic_forecast_accuracy] returns normally
    exactly when the model could be built, fitted on the first 100 points
    and asked for 100 steps, every error could be computed, the error of
    the forecast itself is below [err], and the errors along
    forecast, 0.7, 0.8, 0.9, 0.99 and along forecast, 0.3, 0.2, 0.1, 0.01
    each increase strictly.  The state it leaves is the one after the
    forecast. *)
Theorem accuracy_helper_passes_iff cls (kw : list (string * kwarg)) (err : Q)
    ts (noisy_ts : TimeSeries) w w' :
  helper_test_probabilistic_forecast_accuracy cls kw err ts noisy_ts w
    = (Returns tt, w') ↔
  ∃ pred (m0 : pyfloat) (hi lo : list pyfloat),
    forecast cls kw noisy_ts w = (Returns pred, w')
    ∧ mae_holdout ts pred = inr m0
    ∧ each_result (mae_quantile ts pred) [0.7; 0.8; 0.9; 0.99]%Q = inr hi
    ∧ each_result (mae_quantile ts pred) [0.3; 0.2; 0.1; 0.01]%Q = inr lo
    ∧ float_lt m0 (float_literal err) = true
    ∧ increasing (m0 :: hi) = true
    ∧ increasing (m0 :: lo) = true.
Proof.
  split.
  - intros Hrun. unfold helper_test_probabilistic_forecast_accuracy in Hrun.
    apply helper_needs_forecast in Hrun as (pred & w1 & Hf & Hrun).
    apply bind_returns in Hrun as (m0 & w2 & Hm0 & Hrun).
    apply lift_result_returns in Hm0 as [Hm0 ->].
    apply bind_returns in Hrun as ([] & w2 & Hlt & Hrun).
    apply assertLess_returns in Hlt as [Hlt ->].
    cbv beta zeta in Hrun.
    apply bind_returns in Hrun as (l1 & w2 & Hhi & Hrun).
    apply chain_loop_returns in Hhi as (-> & hi & Hhi & Hinc1).
    apply bind_returns in Hrun as (l2 & w2 & Hlo & Hrun).
    apply chain_loop_returns in Hlo as (-> & lo & Hlo & Hinc2).
    apply ret_returns in Hrun as [_ ->].
    by exists pred, m0, hi, lo.
  - intros (pred & m0 & hi & lo & Hf & Hm0 & Hhi & Hlo & Hlt & Hinc1 & Hinc2).
    rewrite (accuracy_helper_after_forecast _ _ _ _ _ _ _ _ Hf).
    rewrite Hm0, (bind_after _ _ _ _ _ (lift_result_inr _ _)).
    rewrite (bind_after _ _ w' w' tt) by by apply assertLess_returns.
    destruct (chain_loop_passes _ _ _ _ w' Hhi Hinc1) as (l1 & H1).
    destruct (chain_loop_passes _ _ _ _ w' Hlo Hinc2) as (l2 & H2).
    rewrite (bind_after _ _ _ _ _ H1).
    by rewrite (bind_after _ _ _ _ _ H2).
Qed.

(** X2.  When the forecast and all nine errors can be computed but one of
    the comparisons fails, the accuracy helper raises an [AssertionError],
    in the state that the forecast left. *)
Theorem accuracy_helper_fails_with_AssertionError
    cls (kw : list (string * kwarg)) (err : Q) ts (noisy_ts : TimeSeries)
    w w' pred (m0 : pyfloat) (hi lo : list pyfloat) :
  forecast cls kw noisy_ts w = (Returns pred, w') →
  mae_holdout ts pred = inr m0 →
  each_result (mae_quantile ts pred) [0.7; 0.8; 0.9; 0.99]%Q = inr hi →
  each_result (mae_quantile ts pred) [0.3; 0.2; 0.1; 0.01]%Q = inr lo →
  float_lt m0 (float_literal err) && increasing (m0 :: hi)
    && increasing (m0 :: lo) = false →
  ∃ e,
    helper_test_probabilistic_forecast_accuracy cls kw err ts noisy_ts w
      = (Raises e, w')
    ∧ exn_class e = "AssertionError".
Proof.
  intros Hf Hm0 Hhi Hlo Hbad.
  rewrite (accuracy_helper_after_forecast _ _ _ _ _ _ _ _ Hf).
  rewrite Hm0, (bind_after _ _ _ _ _ (lift_result_inr _ _)).
  destruct (float_lt m0 (float_literal err)) eqn:Hlt.
  - rewrite (bind_after _ _ w' w' tt) by by apply assertLess_returns.
    destruct (increasing (m0 :: hi)) eqn:Hinc1.
    + destruct (increasing (m0 :: lo)) eqn:Hinc2; [discriminate Hbad|].
      destruct (chain_loop_passes _ _ _ _ w' Hhi Hinc1) as (l1 & H1).
      rewrite (bind_after _ _ _ _ _ H1).
      destruct (chain_loop_fails _ _ _ _ w' Hlo Hinc2) as (e & H2 & He).
      exists e. split; [|done]. by rewrite Py_bind_run, H2.
    + destruct (chain_loop_fails _ _ _ _ w' Hhi Hinc1) as (e & H1 & He).
      exists e. split; [|done]. by rewrite Py_bind_run, H1.
  - destruct (assertLess_fails m0 (float_literal err) w' Hlt) as (e & H1 & He).
    exists e. split; [|done]. by rewrite Py_bind_run, H1.
Qed.

Lemma risk_helper_after_forecast cls (kw : list (string * kwarg)) (err : Q)
    ts (noisy_ts : TimeSeries) pred w w1 :
  forecast cls kw noisy_ts w = (Returns pred, w1) →
  helper_test_probabilistic_forecast_risk cls kw err ts noisy_ts w
  = (rrisk_median ← lift_result (rho_risk_holdout ts pred 0.5%Q) ;
     assertLess rrisk_median (float_literal err) ;;
     rrisk_err ← lift_result (rho_risk_holdout ts pred 0.75%Q) ;
     for_fold [0.8; 0.9; 0.95; 0.99]%Q rrisk_err (λ rrisk_err quantile,
       new_rrisk ← lift_result (rho_risk_holdout ts pred quantile) ;
       assertLess rrisk_err new_rrisk ;; mret new_rrisk) ;;
     rrisk_err ← lift_result (rho_risk_holdout ts pred 0.25%Q) ;
     for_fold [0.2; 0.1; 0.05; 0.01]%Q rrisk_err (λ rrisk_err quantile,
       new_rrisk ← lift_result (rho_risk_holdout ts pred quantile) ;
       assertLess rrisk_err new_rrisk ;; mret new_rrisk) ;;
     mret tt) w1.
Proof.
  intros (model & w0 & train & w2 & Hnew & Htrain & Hfit & Hpred)
    %forecast_returns.
  unfold helper_test_probabilistic_forecast_risk.
  rewrite (bind_after _ _ _ _ _ Hnew). cbv beta.
  rewrite Htrain, (bind_after _ _ _ _ _ (lift_result_inr _ _)).
  rewrite (bind_after _ _ _ _ _ Hfit).
  by rewrite (bind_after _ _ _ _ _ Hpred).
Qed.

(** X3.  [helper_test_probabilistic_forecast_risk] returns normally exactly
    when the forecast and every risk could be computed, the risk at 0.5 is
    below [err], the risks along 0.75, 0.8, 0.9, 0.95, 0.99 increase
    strictly and so do the risks along 0.25, 0.2, 0.1, 0.05, 0.01.  The risk
    at 0.5 is compared with [err] only, not with the other risks. *)
Theorem risk_helper_passes_iff cls (kw : list (string * kwarg)) (err : Q)
    ts (noisy_ts : TimeSeries) w w' :
  helper_test_probabilistic_forecast_risk cls kw err ts noisy_ts w
    = (Returns tt, w') ↔
  ∃ pred (r50 r75 r25 : pyfloat) (hi lo : list pyfloat),
    forecast cls kw noisy_ts w = (Returns pred, w')
    ∧ rho_risk_holdout ts pred 0.5%Q = inr r50
    ∧ rho_risk_holdout ts pred 0.75%Q = inr r75
    ∧ each_result (rho_risk_holdout ts pred) [0.8; 0.9; 0.95; 0.99]%Q = inr hi
    ∧ rho_risk_holdout ts pred 0.25%Q = inr r25
    ∧ each_result (rho_risk_holdout ts pred) [0.2; 0.1; 0.05; 0.01]%Q = inr lo
    ∧ float_lt r50 (float_literal err) = true
    ∧ increasing (r75 :: hi) = true
    ∧ increasing (r25 :: lo) = true.
Proof.
  split.
  - intros Hrun. unfold helper_test_probabilistic_forecast_risk in Hrun.
    apply helper_needs_forecast in Hrun as (pred & w1 & Hf & Hrun).
    apply bind_returns in Hrun as (r50 & w2 & H50 & Hrun).
    apply lift_result_returns in H50 as [H50 ->].
    apply bind_returns in Hrun as ([] & w2 & Hlt & Hrun).
    apply assertLess_returns in Hlt as [Hlt ->].
    cbv beta zeta in Hrun.
    apply bind_returns in Hrun as (r75 & w2 & H75 & Hrun).
    apply lift_result_returns in H75 as [H75 ->].
    apply bind_returns in Hrun as (l1 & w2 & Hhi & Hrun).
    apply chain_loop_returns in Hhi as (-> & hi & Hhi & Hinc1).
    apply bind_returns in Hrun as (r25 & w2 & H25 & Hrun).
    apply lift_result_returns in H25 as [H25 ->].
    apply bind_returns in Hrun as (l2 & w2 & Hlo & Hrun).
    apply chain_loop_returns in Hlo as (-> & lo & Hlo & Hinc2).
    apply ret_returns in Hrun as [_ ->].
    by exists pred, r50, r75, r25, hi, lo.
  - intros (pred & r50 & r75 & r25 & hi & lo
            & Hf & H50 & H75 & Hhi & H25 & Hlo & Hlt & Hinc1 & Hinc2).
    rewrite (risk_helper_after_forecast _ _ _ _ _ _ _ _ Hf).
    rewrite H50, (bind_after _ _ _ _ _ (lift_result_inr _ _)).
    rewrite (bind_after _ _ w' w' tt) by by apply assertLess_returns.
    rewrite H75, (bind_after _ _ _ _ _ (lift_result_inr _ _)).
    destruct (chain_loop_passes _ _ _ _ w' Hhi Hinc1) as (l1 & H1).
    destruct (chain_loop_passes _ _ _ _ w' Hlo Hinc2) as (l2 & H2).
    rewrite (bind_after _ _ _ _ _ H1).
    rewrite H25, (bind_after _ _ _ _ _ (lift_result_inr _ _)).
    by rewrite (bind_after _ _ _ _ _ H2).
Qed.

End Helper_facts.

(* ===================================================================== *)
(** * The test class: the three test methods                               *)
(* ===================================================================== *)

Section Test_facts.
Import test_probabilistic_models.
Context {D : Darts}.

Implicit Types (w : World) (self : TestCase TimeSeries) (g : globals).

Lemma fitted_with_values_returns cls (kw : list (string * kwarg))
    (ts : TimeSeries) (model : Model) (v : ndarray) w w' :
  fitted_with_values cls kw ts w = (Returns (model, v), w') ↔
  ∃ w1 w2,
    new_model cls kw w = (Returns model, w1)
    ∧ fit model ts w1 = (Returns tt, w2)
    ∧ predict_values model 10 2 w2 = (Returns v, w').
Proof.
  unfold fitted_with_values. split.
  - intros Hrun.
    apply bind_returns in Hrun as (model' & w1 & Hnew & Hrun).
    apply bind_returns in Hrun as ([] & w2 & Hfit & Hrun).
    apply bind_returns in Hrun as (v' & w3 & Hv & Hrun).
    apply ret_returns in Hrun as [[= -> ->] ->]. eauto.
  - intros (w1 & w2 & Hnew & Hfit & Hv).
    rewrite (bind_after _ _ _ _ _ Hnew), (bind_after _ _ _ _ _ Hfit).
    by rewrite (bind_after _ _ _ _ _ Hv).
Qed.

(** X4.  [test_fit_predict_determinism] returns normally exactly when, for
    each listed entry in order, two models built from the same class and
    keywords and fitted on the constant series give all-equal first values,
    and the next values of the second model differ somewhere from its first
    ones. *)
Theorem determinism_test_passes_iff self g w w' :
  test_fit_predict_determinism self g w = (Returns tt, w') ↔
  determinism_observed (constant_ts self) (models_cls_kwargs_errs g) w w'.
Proof.
  unfold test_fit_predict_determinism.
  generalize (models_cls_kwargs_errs g) as entries.
  intros entries. revert w.
  induction entries as [|entry entries IH]; intros w.
  - simpl. rewrite ret_returns. split; [by intros [_ ->] | by intros ->].
  - rewrite for_each_cons. cbn [determinism_observed]. split.
    + intros (w0 & Hbody & Hrest). cbv beta zeta in Hbody.
      apply bind_returns in Hbody as (model1 & w1 & Hnew1 & Hbody).
      apply bind_returns in Hbody as ([] & w2 & Hfit1 & Hbody).
      apply bind_returns in Hbody as (pred1 & w3 & Hv1 & Hbody).
      apply bind_returns in Hbody as (model2 & w4 & Hnew2 & Hbody).
      apply bind_returns in Hbody as ([] & w5 & Hfit2 & Hbody).
      apply bind_returns in Hbody as (pred2 & w6 & Hv2 & Hbody).
      apply bind_returns in Hbody as (same & w7 & Hsame & Hbody).
      apply lift_result_returns in Hsame as [Hsame ->].
      apply bind_returns in Hbody as ([] & w7 & Htrue1 & Hbody).
      apply assertTrue_returns in Htrue1 as [-> ->].
      apply bind_returns in Hbody as (pred3 & w7 & Hv3 & Hbody).
      apply bind_returns in Hbody as (differ & w8 & Hdiffer & Hbody).
      apply lift_result_returns in Hdiffer as [Hdiffer ->].
      apply assertTrue_returns in Hbody as [-> ->].
      exists model1, pred1, w3, model2, pred2, w6, pred3, w7.
      split_and!; try done.
      * apply fitted_with_values_returns. eauto.
      * apply fitted_with_values_returns. eauto.
      * by apply IH.
    + intros (model1 & pred1 & w3 & model2 & pred2 & w6 & pred3 & w0
              & H1 & H2 & Hsame & Hv3 & Hdiffer & Hrest).
      apply fitted_with_values_returns in H1 as (w1 & w2 & Hnew1 & Hfit1 & Hv1).
      apply fitted_with_values_returns in H2 as (w4 & w5 & Hnew2 & Hfit2 & Hv2).
      exists w0. split; [|by apply IH]. cbv beta zeta.
      rewrite (bind_after _ _ _ _ _ Hnew1), (bind_after _ _ _ _ _ Hfit1).
      rewrite (bind_after _ _ _ _ _ Hv1).
      rewrite (bind_after _ _ _ _ _ Hnew2), (bind_after _ _ _ _ _ Hfit2).
      rewrite (bind_after _ _ _ _ _ Hv2).
      rewrite Hsame, (bind_after _ _ _ _ _ (lift_result_inr _ _)).
      rewrite (bind_after _ _ w6 w6 tt) by by apply assertTrue_returns.
      rewrite (bind_after _ _ _ _ _ Hv3).
      rewrite Hdiffer, (bind_after _ _ _ _ _ (lift_result_inr _ _)).
      by apply assertTrue_returns.
Qed.

(** X5.  When no listed class is a [GlobalForecastingModel], the two
    forecast tests never look at the multivariate series: test cases that
    agree on the univariate series run identically. *)
Theorem multivariate_series_unused_without_global_models self self' g w :
  (∀ entry : model_entry,
     entry ∈ models_cls_kwargs_errs g →
     issubclass_GlobalForecastingModel entry.1.1 = false) →
  constant_ts self' = constant_ts self →
  constant_noisy_ts self' = constant_noisy_ts self →
  test_probabilistic_forecast_accuracy self' g w
    = test_probabilistic_forecast_accuracy self g w
  ∧ test_probabilistic_forecast_risk self' g w
    = test_probabilistic_forecast_risk self g w.
Proof.
  intros Hlocal Hts Hnoisy.
  unfold test_probabilistic_forecast_accuracy,
    test_probabilistic_forecast_risk.
  split; apply for_each_ext; intros entry w0 Hentry;
    by rewrite (Hlocal entry Hentry), Hts, Hnoisy.
Qed.

(** X6.  [test_probabilistic_forecast_accuracy] ends at the first entry
    whose univariate check raises: the exception leaves the test, and
    neither the multivariate check of that entry nor any later entry is
    run. *)
Theorem accuracy_test_stops_at_first_failure
    self (torch : bool) (l1 l2 : list model_entry) (entry : model_entry)
    w w1 w2 e :
  test_probabilistic_forecast_accuracy self (mkGlobals torch l1) w
    = (Returns tt, w1) →
  helper_test_probabilistic_forecast_accuracy
    entry.1.1 entry.1.2 entry.2
    (constant_ts self) (constant_noisy_ts self) w1 = (Raises e, w2) →
  test_probabilistic_forecast_accuracy
    self (mkGlobals torch (l1 ++ entry :: l2)) w = (Raises e, w2).
Proof.
  unfold test_probabilistic_forecast_accuracy. simpl. intros Hl1 Hentry.
  apply (for_each_stops _ _ _ _ _ _ _ _ Hl1).
  by rewrite Py_bind_run, Hentry.
Qed.

(** X7.  The same for [test_probabilistic_forecast_risk]. *)
Theorem risk_test_stops_at_first_failure
    self (torch : bool) (l1 l2 : list model_entry) (entry : model_entry)
    w w1 w2 e :
  test_probabilistic_forecast_risk self (mkGlobals torch l1) w
    = (Returns tt, w1) →
  helper_test_probabilistic_forecast_risk
    entry.1.1 entry.1.2 entry.2
    (constant_ts self) (constant_noisy_ts self) w1 = (Raises e, w2) →
  test_probabilistic_forecast_risk
    self (mkGlobals torch (l1 ++ entry :: l2)) w = (Raises e, w2).
Proof.
  unfold test_probabilistic_forecast_risk. simpl. intros Hl1 Hentry.
  apply (for_each_stops _ _ _ _ _ _ _ _ Hl1).
  by rewrite Py_bind_run, Hentry.
Qed.

(** X8.  If [test_probabilistic_forecast_accuracy] returns normally, then
    for every listed entry the helper has returned normally on the
    univariate series with the entry's class, keywords and bound, and, for a
    [GlobalForecastingModel], right afterwards on the multivariate
    series. *)
Theorem accuracy_test_passed_every_model self g w w' (entry : model_entry) :
  test_probabilistic_forecast_accuracy self g w = (Returns tt, w') →
  entry ∈ models_cls_kwargs_errs g →
  ∃ w1 w2,
    helper_test_probabilistic_forecast_accuracy
      entry.1.1 entry.1.2 entry.2
      (constant_ts self) (constant_noisy_ts self) w1 = (Returns tt, w2)
    ∧ (issubclass_GlobalForecastingModel entry.1.1 = true →
       ∃ w3,
         helper_test_probabilistic_forecast_accuracy
           entry.1.1 entry.1.2 entry.2
           (constant_multivar_ts self) (constant_noisy_multivar_ts self) w2
         = (Returns tt, w3)).
Proof.
  unfold test_probabilistic_forecast_accuracy. intros Hrun Hentry.
  destruct (for_each_passed _ _ _ _ _ Hrun Hentry) as (w1 & w3 & Hbody).
  cbv beta in Hbody.
  apply bind_returns in Hbody as ([] & w2 & Huni & Hmulti).
  exists w1, w2. split; [done|]. intros Hglobal.
  rewrite Hglobal in Hmulti. eauto.
Qed.

(** X9.  The same for [test_probabilistic_forecast_risk]. *)
Theorem risk_test_passed_every_model self g w w' (entry : model_entry) :
  test_probabilistic_forecast_risk self g w = (Returns tt, w') →
  entry ∈ models_cls_kwargs_errs g →
  ∃ w1 w2,
    helper_test_probabilistic_forecast_risk
      entry.1.1 entry.1.2 entry.2
      (constant_ts self) (constant_noisy_ts self) w1 = (Returns tt, w2)
    ∧ (issubclass_GlobalForecastingModel entry.1.1 = true →
       ∃ w3,
         helper_test_probabilistic_forecast_risk
           entry.1.1 entry.1.2 entry.2
           (constant_multivar_ts self) (constant_noisy_multivar_ts self) w2
         = (Returns tt, w3)).
Proof.
  unfold test_probabilistic_forecast_risk. intros Hrun Hentry.
  destruct (for_each_passed _ _ _ _ _ Hrun Hentry) as (w1 & w3 & Hbody).
  cbv beta in Hbody.
  apply bind_returns in Hbody as ([] & w2 & Huni & Hmulti).
  exists w1, w2. split; [done|]. intros Hglobal.
  rewrite Hglobal in Hmulti. eauto.
Qed.

End Test_facts.

(* ===================================================================== *)
(** * RandomForest: further properties of the constructor and [__str__]    *)
(* ===================================================================== *)

Section RandomForest_more_facts.
Import random_forest.
Context {SK : Sklearn} {RM : RegressionModel}.

Implicit Types (a : init_args) (s : state Regressor) (self : RandomForest).

Lemma dicts_at_super_old a s (l : loc) :
  l ∈ dom (dicts s) → dicts_at_super a s !! l = dicts s !! l.
Proof.
  intros Hl. unfold dicts_at_super. apply lookup_insert_ne.
  intros <-. by apply (is_fresh (dom (dicts s))).
Qed.

(** X10.  When [RandomForestRegressor] rejects the keywords, the constructor
    raises that exception, the base-class constructor is never called, and
    every dict that existed before the call is unchanged. *)
Theorem estimator_failure_skips_base a s e :
  RandomForestRegressor (kwargs_with_hyperparameters a) = inl e →
  ∃ s',
    RandomForest_init a s = (Raises e, s')
    ∧ calls s'
      = (calls s
         ++ [CallRandomForestRegressor (kwargs_with_hyperparameters a)])%list
    ∧ (∀ l : loc, l ∈ dom (dicts s) → dicts s' !! l = dicts s !! l).
Proof.
  intros Hfail. rewrite RandomForest_init_run; simpl. rewrite Hfail.
  eexists. split; [done|]. simpl. split; [done|].
  intros l Hl. by apply dicts_at_super_old.
Qed.



(** X14.  [__str__] raises [AttributeError] for the first lag attribute, in
    the order lags, lags_past_covariates, lags_historical_covariates,
    lags_future_covariates, that the instance lacks; it changes nothing. *)
Theorem str_raises_at_first_missing_attribute self s (name : string) :
  first_missing self = Some name →
  RandomForest_str self s = (Raises (AttributeError "RandomForest" name), s).
Proof.
  unfold first_missing, lag_attributes, RandomForest_str, getattr_lag.
  simpl. rewrite Py_bind_run.
  destruct (inherited self !! "lags") as [v1|]; simpl;
    [|by intros [= <-]].
  rewrite Py_bind_run.
  destruct (inherited self !! "lags_past_covariates") as [v2|]; simpl;
    [|by intros [= <-]].
  rewrite Py_bind_run.
  destruct (inherited self !! "lags_historical_covariates") as [v3|]; simpl;
    [|by intros [= <-]].
  rewrite Py_bind_run.
  destruct (inherited self !! "lags_future_covariates") as [v4|]; simpl;
    [done | by intros [= <-]].
Qed.

End RandomForest_more_facts.

(* ===================================================================== *)
(** * The test module: what its globals always satisfy                     *)
(* ===================================================================== *)

Section Module_level_more_facts.
Import test_probabilistic_models.
Context {IS : Importer}.

(** X15.  Whenever the module initialises, its list of models is the two
    entries of ExponentialSmoothing and ARIMA followed by the two torch
    entries exactly when [TORCH_AVAILABLE] is [True], and the warning has
    been logged exactly when it is [False]. *)
Theorem module_globals_consistent (s s' : log) (g : globals) :
  module_init s = (Returns g, s') →
  models_cls_kwargs_errs g
    = (base_entries ++ if TORCH_AVAILABLE g then torch_entries else [])%list
  ∧ s' = (s ++ if TORCH_AVAILABLE g then [] else [torch_warning])%list.
Proof.
  unfold module_init.
  rewrite Py_bind_run, run_imports_first_raised.
  destruct (first_raised unguarded_imports) as [e|]; [done|].
  rewrite Py_bind_run. unfold try_except.
  rewrite Py_bind_run, run_imports_first_raised.
  destruct (first_raised guarded_imports) as [e|].
  - destruct (isinstance e "ImportError"); [|done].
    intros [= <- <-]. simpl. by split.
  - intros [= <- <-]. simpl. by rewrite app_nil_r.
Qed.

End Module_level_more_facts.

(* ===================================================================== *)
(** * Further concrete runs                                                *)
(* ===================================================================== *)

Section More_runs.
Import random_forest test_probabilistic_models samples.

(** On the small library, the helpers pass with the bound of
    ExponentialSmoothing, and all three tests pass on the full list. *)
Example run_accuracy_helper :
  helper_test_probabilistic_forecast_accuracy
    ExponentialSmoothing [] 0.4%Q
    (constant_ts flat_case) (constant_noisy_ts flat_case) 7%nat
  = (Returns tt, 1%nat).
Proof. reflexivity. Qed.

Example run_risk_helper :
  helper_test_probabilistic_forecast_risk
    ExponentialSmoothing [] 0.4%Q
    (constant_ts flat_case) (constant_noisy_ts flat_case) 7%nat
  = (Returns tt, 1%nat).
Proof. reflexivity. Qed.

Example run_determinism_test :
  test_fit_predict_determinism
    flat_case (mkGlobals true (base_entries ++ torch_entries)) 7%nat
  = (Returns tt, 2%nat).
Proof. reflexivity. Qed.

Lemma accuracy_helper_fails_with_AssertionError_witness :
  ∃ e,
    helper_test_probabilistic_forecast_accuracy
      ExponentialSmoothing [] 0%Q
      (constant_ts flat_case) (constant_noisy_ts flat_case) 7%nat
    = (Raises e, 1%nat)
    ∧ exn_class e = "AssertionError".
Proof.
  eapply (@accuracy_helper_fails_with_AssertionError toy_darts
            ExponentialSmoothing [] 0%Q
            (constant_ts flat_case) (constant_noisy_ts flat_case)
            7%nat 1%nat ((1 # 2)%Q, 0%nat));
    reflexivity.
Defined.

Lemma base_entries_are_local (entry : model_entry) :
  entry ∈ base_entries →
  issubclass_GlobalForecastingModel entry.1.1 = false.
Proof.
  unfold base_entries. intros Hentry.
  apply elem_of_cons in Hentry as [->|Hentry]; [done|].
  apply list_elem_of_singleton in Hentry as ->. done.
Qed.

Lemma multivariate_series_unused_without_global_models_witness :
  test_probabilistic_forecast_accuracy
    skewed_case (mkGlobals false base_entries) 7%nat
  = test_probabilistic_forecast_accuracy
      flat_case (mkGlobals false base_entries) 7%nat
  ∧ test_probabilistic_forecast_risk
      skewed_case (mkGlobals false base_entries) 7%nat
    = test_probabilistic_forecast_risk
        flat_case (mkGlobals false base_entries) 7%nat.
Proof.
  apply (@multivariate_series_unused_without_global_models toy_darts
           flat_case skewed_case (mkGlobals false base_entries) 7%nat).
  - exact base_entries_are_local.
  - reflexivity.
  - reflexivity.
Defined.

Lemma accuracy_test_stops_at_first_failure_witness :
  test_probabilistic_forecast_accuracy
    flat_case
    (mkGlobals false
       ([(ExponentialSmoothing, [], 0.4%Q)]
        ++ (ARIMA, [], 0%Q) :: torch_entries)) 7%nat
  = (Raises (AssertionError "<float> not less than <float>"), 1%nat).
Proof.
  apply (@accuracy_test_stops_at_first_failure toy_darts
           flat_case false [(ExponentialSmoothing, [], 0.4%Q)] torch_entries
           (ARIMA, [], 0%Q) 7%nat 1%nat 1%nat);
    reflexivity.
Defined.

Lemma risk_test_stops_at_first_failure_witness :
  test_probabilistic_forecast_risk
    flat_case
    (mkGlobals false
       ([(ExponentialSmoothing, [], 0.4%Q)]
        ++ (ARIMA, [], 0%Q) :: torch_entries)) 7%nat
  = (Raises (AssertionError "<float> not less than <float>"), 1%nat).
Proof.
  apply (@risk_test_stops_at_first_failure toy_darts
           flat_case false [(ExponentialSmoothing, [], 0.4%Q)] torch_entries
           (ARIMA, [], 0%Q) 7%nat 1%nat 1%nat);
    reflexivity.
Defined.

Lemma accuracy_test_passed_every_model_witness :
  ∃ w1 w2 : nat,
    helper_test_probabilistic_forecast_accuracy
      TCNModel
      [("input_chunk_length", KInt 10); ("output_chunk_length", KInt 5);
       ("n_epochs", KInt 60); ("random_state", KInt 0);
       ("likelihood", KGaussianLikelihoodModel)] 0.28%Q
      (constant_ts flat_case) (constant_noisy_ts flat_case) w1
    = (Returns tt, w2).
Proof.
  destruct (@accuracy_test_passed_every_model toy_darts
              flat_case (mkGlobals true (base_entries ++ torch_entries))
              7%nat 1%nat
              (TCNModel,
               [("input_chunk_length", KInt 10);
                ("output_chunk_length", KInt 5);
                ("n_epochs", KInt 60); ("random_state", KInt 0);
                ("likelihood", KGaussianLikelihoodModel)], 0.28%Q))
    as (w1 & w2 & Huni & _).
  - reflexivity.
  - cbv [models_cls_kwargs_errs base_entries torch_entries app].
    repeat constructor.
  - exists w1, w2. exact Huni.
Defined.

Lemma risk_test_passed_every_model_witness :
  ∃ w1 w2 : nat,
    helper_test_probabilistic_forecast_risk
      ARIMA [("p", KInt 1); ("d", KInt 0); ("q", KInt 1)] 0.17%Q
      (constant_ts flat_case) (constant_noisy_ts flat_case) w1
    = (Returns tt, w2).
Proof.
  destruct (@risk_test_passed_every_model toy_darts
              flat_case (mkGlobals false base_entries) 7%nat 1%nat
              (ARIMA, [("p", KInt 1); ("d", KInt 0); ("q", KInt 1)], 0.17%Q))
    as (w1 & w2 & Huni & _).
  - reflexivity.
  - cbv [models_cls_kwargs_errs base_entries torch_entries app].
    repeat constructor.
  - exists w1, w2. exact Huni.
Defined.

Lemma estimator_failure_skips_base_witness :
  ∃ s',
    RandomForest_init args_unknown_keyword empty_state
    = (Raises (TypeError "__init__() got an unexpected keyword argument"), s')
    ∧ calls s'
      = [CallRandomForestRegressor
           (kwargs_with_hyperparameters args_unknown_keyword)].
Proof.
  destruct (@estimator_failure_skips_base storing_estimator recording_base
              args_unknown_keyword empty_state
              (TypeError "__init__() got an unexpected keyword argument")
              eq_refl)
    as (s' & Hrun & Hcalls & _).
  exists s'. auto.
Defined.

Lemma init_raises_only_what_collaborators_raise_witness :
  RegressionModel_init
    (self_at_super args_nolags empty_state)
    (dicts_at_super args_nolags empty_state)
    (param_lags args_nolags) (param_lags_past_covariates args_nolags)
    (param_lags_future_covariates args_nolags)
    (kwargs_with_hyperparameters args_nolags)
  = inl (ValueError "At least one lag specification must be given").
Proof.
  destruct (@init_raises_only_what_collaborators_raise storing_estimator recording_base
              args_nolags empty_state
              (ValueError "At least one lag specification must be given")
              eq_refl)
    as [Hestimator|(model & Hmodel & Hbase)].
  - pose proof (eq_refl : RandomForestRegressor
                            (kwargs_with_hyperparameters args_nolags)
                          = inr (kwargs_with_hyperparameters args_nolags))
      as Hbuilt.
    congruence.
  - pose proof (eq_refl : RandomForestRegressor
                            (kwargs_with_hyperparameters args_nolags)
                          = inr (kwargs_with_hyperparameters args_nolags))
      as Hbuilt.
    assert (model = kwargs_with_hyperparameters args_nolags) as ->
      by congruence.
    exact Hbase.
Defined.



Lemma str_raises_at_first_missing_attribute_witness :
  first_missing instance_half_set = Some "lags_historical_covariates"
  ∧ RandomForest_str instance_half_set empty_state
    = (Raises (AttributeError "RandomForest" "lags_historical_covariates"),
       empty_state).
Proof.
  split; [reflexivity|].
  apply (@str_raises_at_first_missing_attribute storing_estimator
           instance_half_set empty_state).
  reflexivity.
Defined.

Lemma module_globals_consistent_witness :
  @module_init no_torch []
    = (Returns (mkGlobals false base_entries), [torch_warning])
  ∧ models_cls_kwargs_errs (mkGlobals false base_entries)
    = (base_entries ++ [])%list.
Proof.
  split; [reflexivity|].
  eapply proj1, (@module_globals_consistent no_torch [] [torch_warning]).
  reflexivity.
Defined.

Lemma unguarded_import_failure_propagates_witness :
  @first_raised no_darts_models unguarded_imports
    = Some (ImportError "cannot import name 'ExponentialSmoothing'")
  ∧ @module_init no_darts_models []
    = (Raises (ImportError "cannot import name 'ExponentialSmoothing'"), []).
Proof.
  split; [reflexivity|].
  apply (@unguarded_import_failure_propagates no_darts_models).
  reflexivity.
Defined.

Lemma all_imports_succeed_witness :
  @module_init full_install []
  = (Returns (mkGlobals true (base_entries ++ torch_entries)), []).
Proof.
  apply (@all_imports_succeed full_install); reflexivity.
Defined.

End More_runs.
